(** * hoi-datasets: bounding-box geometry and the H2O dataset loader

    A shallow embedding of [hoi/structs/_box.py], [hoi/structs/_sample.py]
    and [hoi/datasets/_h2o.py], followed by the properties the
    specification states about them.

    Python values are modelled as follows.
    - [float] is IEEE-754 binary64, i.e. Rocq's primitive [float]; the same
      definitions are also instantiated on the canonical rationals [Qc]
      to state what the formulas do when no rounding takes place.
    - the coordinates of a box are [float]s, as the dataclass annotates
      them; since nothing coerces them and a JSON array holds ints as well,
      [normalize] and [denormalize] are also given on coordinates that are
      ints or floats ([number]).
    - [int] is [Z]; mixing a [float] with an [int] converts the [int]
      first, which raises [OverflowError] for an [int] that rounds beyond
      the largest binary64; the quotient of two ints is the correctly
      rounded float, and their product is an int.
    - [str] is the list of its code points.
    - a raised exception is the [Err] branch of [result]. *)

From Stdlib Require Import ZArith List Bool String Ascii Lia.
From Stdlib Require Import QArith Qcanon Field.
From Stdlib Require Import DecimalString Permutation.
From Stdlib Require Import Floats.PrimFloat Floats.FloatOps Floats.SpecFloat.
Import ListNotations.

(* ------------------------------------------------------------------------- *)
(** ** Strings *)
(* ------------------------------------------------------------------------- *)

(** A Python [str]: a sequence of Unicode code points. *)
Definition str := list N.

(** A literal written in the source with ASCII characters only. *)
Definition lit (s : string) : str := map N_of_ascii (list_ascii_of_string s).

Definition str_eq_dec : forall a b : str, {a = b} + {a <> b} :=
  list_eq_dec N.eq_dec.

Definition str_eqb (a b : str) : bool :=
  if str_eq_dec a b then true else false.

(* ------------------------------------------------------------------------- *)
(** ** Exceptions *)
(* ------------------------------------------------------------------------- *)

(** A [pathlib.Path], kept as the expression that builds it: [Path(s)] and
    [p / segment].  How pathlib resolves the segments is the library's and
    is not modelled (an absolute segment discards what stands before it, so
    an id that starts with a slash gives the image [/<id>.jpg]); two paths
    built alike are the same path. *)
Inductive Path : Type :=
| PathOf (s : str)
| Join (p : Path) (segment : str).

Declare Scope path_scope.
Delimit Scope path_scope with path.
Bind Scope path_scope with Path.
Infix "/" := Join : path_scope.

(** The exceptions the modelled code raises.  The specification names the
    failures by role; in the code they are Python's built-in exceptions:
    [InvalidFormat] is the [KeyError] of the enumeration lookup,
    [InvalidBoundingBox] the [ValueError] of [__post_init__], and
    [SampleNotFound] the [KeyError] of the dictionary lookup. *)
Inductive exn : Type :=
| KeyError (key : str)
| ValueError (got : nat)   (* "Expected 4 coordinates, got {got}." *)
| ZeroDivisionError
| OverflowError
| FileNotFoundError (p : Path).

Inductive result (A : Type) : Type :=
| Ok (a : A)
| Err (e : exn).
Arguments Ok {A} a.
Arguments Err {A} e.

Definition bind {A B} (r : result A) (k : A -> result B) : result B :=
  match r with
  | Ok a => k a
  | Err e => Err e
  end.

Declare Scope py_scope.
Delimit Scope py_scope with py.
Notation "x <- c ;; k" := (bind c (fun x => k))
  (at level 61, c at next level, right associativity) : py_scope.

(* ------------------------------------------------------------------------- *)
(** ** Arithmetic on coordinates *)
(* ------------------------------------------------------------------------- *)

(** The operations the bounding-box code applies to its coordinates. *)
Class PyFloat (F : Type) : Type := {
  fadd : F -> F -> F;
  fsub : F -> F -> F;
  fmul : F -> F -> F;
  fdiv : F -> F -> F;          (* the quotient by a divisor that is not zero *)
  of_int : Z -> option F;      (* float(n); None: "int too large to convert" *)
  two : F                      (* float(2) *)
}.

Declare Scope num_scope.
Delimit Scope num_scope with num.
Infix "+" := fadd : num_scope.
Infix "-" := fsub : num_scope.
Infix "*" := fmul : num_scope.
Infix "/" := fdiv : num_scope.

(** Python's binary64: the kernel's primitive floats.  An [int] is rounded
    to the nearest binary64, ties to even, and the conversion fails when the
    rounded value does not fit. *)
Definition float_of_int (n : Z) : option float :=
  let f := SF2Prim (binary_normalize prec emax n 0 false) in
  if PrimFloat.is_infinity f then None else Some f.

#[export] Instance binary64 : PyFloat float := {
  fadd := PrimFloat.add;
  fsub := PrimFloat.sub;
  fmul := PrimFloat.mul;
  fdiv := PrimFloat.div;
  of_int := float_of_int;
  two := 2%float
}.

(** Exact arithmetic: the same operations on the rationals, where nothing is
    rounded and every [int] converts. *)
#[export] Instance exact : PyFloat Qc := {
  fadd := Qcplus;
  fsub := Qcminus;
  fmul := Qcmult;
  fdiv := Qcdiv;
  of_int := fun n => Some (Q2Qc (inject_Z n));
  two := Q2Qc 2
}.

Section FloatLike.
Context {F : Type} `{PyFloat F}.

(** [c / n] for a float [c] and an int [n]: the int is converted, a zero
    divisor raises, otherwise the floats are divided.  (An int converts to
    zero exactly when it is zero.) *)
Definition float_truediv (c : F) (n : Z) : result F :=
  match of_int n with
  | None => Err OverflowError
  | Some d => if (n =? 0)%Z then Err ZeroDivisionError else Ok (c / d)%num
  end.

(** [c * n] for a float [c] and an int [n]. *)
Definition float_times (c : F) (n : Z) : result F :=
  match of_int n with
  | None => Err OverflowError
  | Some d => Ok (c * d)%num
  end.

(** [w / 2]: the literal always converts and is not zero. *)
Definition half (w : F) : F := (w / two)%num.
End FloatLike.

(** The quotient of two ints, the divisor not zero, rounded to the nearest
    binary64, ties to even; [None] when it is too large for a float.  The
    quotient is taken with 64 bits or more and one more bit that tells
    whether the division left a remainder, and then rounded once.  A
    quotient too small for a float is a zero of its sign. *)
Definition round_quotient (k n : Z) : option float :=
  let shift := Z.max 0 (Z.log2 (Z.abs n) - Z.log2 (Z.abs k) + 64) in
  let scaled := (Z.abs k * 2 ^ shift)%Z in
  let q := (scaled / Z.abs n)%Z in
  let sticky := if (scaled mod Z.abs n =? 0)%Z then 0%Z else 1%Z in
  let m := (2 * q + sticky)%Z in
  let negative := xorb (k <? 0)%Z (n <? 0)%Z in
  let f := SF2Prim (binary_normalize prec emax (if negative then - m else m)%Z
                      (- shift - 1)%Z negative) in
  if PrimFloat.is_infinity f then None else Some f.

(** [k / n] for two ints: no operand is converted; a zero divisor raises,
    and so does a quotient too large for a float. *)
Definition int_truediv (k n : Z) : result float :=
  if (n =? 0)%Z then Err ZeroDivisionError
  else match round_quotient k n with
       | Some f => Ok f
       | None => Err OverflowError
       end.

(** A coordinate as a box may hold it: an int or a float. *)
Inductive number : Type :=
| Int (n : Z)
| Float (f : float).

(** [c / n] and [c * n] for a coordinate [c] and an int [n], the two
    operations [normalize] and [denormalize] apply. *)
Class Scalable (C : Type) : Type := {
  truediv : C -> Z -> result C;
  times : C -> Z -> result C
}.

(** On a float the int is converted first. *)
#[export] Instance float_like {F : Type} `{PyFloat F} : Scalable F := {
  truediv := float_truediv;
  times := float_times
}.

(** On a coordinate that is an int or a float: the quotient is a float
    either way, the product of two ints is an int. *)
#[export] Instance python_number : Scalable number := {
  truediv := fun c n =>
    match c with
    | Int k => bind (int_truediv k n) (fun q => Ok (Float q))
    | Float f => bind (float_truediv f n) (fun q => Ok (Float q))
    end;
  times := fun c n =>
    match c with
    | Int k => Ok (Int (k * n))
    | Float f => bind (float_times f n) (fun q => Ok (Float q))
    end
}.

(* ------------------------------------------------------------------------- *)
(** ** BoundingBoxFormat *)
(* ------------------------------------------------------------------------- *)

Inductive BoundingBoxFormat : Type := XYXY | XYWH | CXCYWH.

Module Format.

(** The members of the enumeration, by name, in definition order. *)
Definition members : list (str * BoundingBoxFormat) :=
  [ (lit "XYXY", XYXY); (lit "XYWH", XYWH); (lit "CXCYWH", CXCYWH) ].

Definition name (f : BoundingBoxFormat) : str :=
  match f with
  | XYXY => lit "XYXY"
  | XYWH => lit "XYWH"
  | CXCYWH => lit "CXCYWH"
  end.

(** [__str__]: the member's value. *)
Definition __str__ (f : BoundingBoxFormat) : str :=
  match f with
  | XYXY => lit "xyxy"
  | XYWH => lit "xywh"
  | CXCYWH => lit "cxcywh"
  end.

(** [cls[key]]: lookup of a member by name. *)
Fixpoint lookup (ms : list (str * BoundingBoxFormat)) (key : str)
  : option BoundingBoxFormat :=
  match ms with
  | [] => None
  | (n, f) :: rest => if str_eqb n key then Some f else lookup rest key
  end.

Definition getitem (key : str) : result BoundingBoxFormat :=
  match lookup members key with
  | Some f => Ok f
  | None => Err (KeyError key)
  end.

(** [str.isspace] on one code point: Python's Unicode whitespace. *)
Definition isspace (c : N) : bool :=
  ((9 <=? c) && (c <=? 13) || (28 <=? c) && (c <=? 32)
   || (c =? 133) || (c =? 160) || (c =? 5760)
   || (8192 <=? c) && (c <=? 8202)
   || (c =? 8232) || (c =? 8233) || (c =? 8239) || (c =? 8287)
   || (c =? 12288))%N.

Fixpoint lstrip (s : str) : str :=
  match s with
  | [] => []
  | c :: rest => if isspace c then lstrip rest else s
  end.

Definition rstrip (s : str) : str := rev (lstrip (rev s)).

(** ASCII whitespace: the whitespace the uppercase mapping leaves alone
    whatever the Unicode table. *)
Definition ascii_space (c : N) : Prop := isspace c = true /\ (c < 128)%N.

Definition strip (s : str) : str := rstrip (lstrip s).

Section Upper.
(** The uppercase mapping of the code points outside ASCII comes from
    the Unicode database, which is not part of the program: it is a
    parameter.  One code point may map to several. *)
Variable unicode_upper : N -> list N.

Definition upper_char (c : N) : list N :=
  if ((97 <=? c) && (c <=? 122))%N then [(c - 32)%N]
  else if (c <? 128)%N then [c]
  else unicode_upper c.

Definition upper (s : str) : str := flat_map upper_char s.

Definition from_str (s : str) : result BoundingBoxFormat :=
  getitem (strip (upper s)).
End Upper.

End Format.

(* ------------------------------------------------------------------------- *)
(** ** BoundingBox *)
(* ------------------------------------------------------------------------- *)

(** The frozen dataclass.  [__post_init__] admits only four coordinates, so
    the field is a 4-tuple; [Box.make] below is the constructor call on an
    arbitrary sequence. *)
Record BoundingBox (F : Type) : Type := mkBox {
  coordinates : F * F * F * F;
  format : BoundingBoxFormat;
  normalized : bool
}.
Arguments mkBox {F} _ _ _.
Arguments coordinates {F} _.
Arguments format {F} _.
Arguments normalized {F} _.

Module Box.
Section Construction.
Context {F : Type}.
Local Open Scope py_scope.

(** [__post_init__], on the sequence the constructor was given. *)
Definition __post_init__ (cs : list F) : result unit :=
  if negb (List.length cs =? 4)%nat then Err (ValueError (List.length cs))
  else Ok tt.

(** [BoundingBox(coordinates, format, normalized)]: the generated
    [__init__] stores the fields and calls [__post_init__]; what passes it
    has four elements. *)
Definition make (cs : list F) (fmt : BoundingBoxFormat) (norm : bool)
  : result (BoundingBox F) :=
  _ <- __post_init__ cs ;;
  match cs with
  | [c0; c1; c2; c3] => Ok (mkBox (c0, c1, c2, c3) fmt norm)
  | _ => Err (ValueError (List.length cs))
  end.

End Construction.

(** The methods below build their result with [self.__class__(...)] on a
    4-tuple, for which [__post_init__] never raises. *)

Section Scaling.
Context {F : Type} `{Scalable F}.
Local Open Scope py_scope.

Definition normalize (self : BoundingBox F) (size : Z * Z)
  : result (BoundingBox F) :=
  if normalized self then Ok self
  else
    let '(w, h) := size in
    let '(c0, c1, c2, c3) := coordinates self in
    n0 <- truediv c0 w ;;
    n1 <- truediv c1 h ;;
    n2 <- truediv c2 w ;;
    n3 <- truediv c3 h ;;
    Ok (mkBox (n0, n1, n2, n3) (format self) true).

Definition denormalize (self : BoundingBox F) (size : Z * Z)
  : result (BoundingBox F) :=
  if negb (normalized self) then Ok self
  else
    let '(w, h) := size in
    let '(c0, c1, c2, c3) := coordinates self in
    d0 <- times c0 w ;;
    d1 <- times c1 h ;;
    d2 <- times c2 w ;;
    d3 <- times c3 h ;;
    Ok (mkBox (d0, d1, d2, d3) (format self) false).

End Scaling.

Section Methods.
Context {F : Type} `{PyFloat F}.
Local Open Scope num_scope.

Definition to_xyxy (self : BoundingBox F) : BoundingBox F :=
  match format self with
  | XYXY => self
  | XYWH =>
      let '(xmin, ymin, w, h) := coordinates self in
      mkBox (xmin, ymin, xmin + w, ymin + h) XYXY (normalized self)
  | CXCYWH =>
      let '(cx, cy, w, h) := coordinates self in
      mkBox (cx - half w, cy - half h, cx + half w, cy + half h)
            XYXY (normalized self)
  end.

Definition to_xywh (self : BoundingBox F) : BoundingBox F :=
  match format self with
  | XYWH => self
  | XYXY =>
      let '(xmin, ymin, xmax, ymax) := coordinates self in
      mkBox (xmin, ymin, xmax - xmin, ymax - ymin) XYWH (normalized self)
  | CXCYWH =>
      let '(cx, cy, w, h) := coordinates self in
      mkBox (cx - half w, cy - half h, w, h) XYWH (normalized self)
  end.

Definition to_cxcywh (self : BoundingBox F) : BoundingBox F :=
  match format self with
  | CXCYWH => self
  | XYXY =>
      let '(xmin, ymin, xmax, ymax) := coordinates self in
      mkBox (half (xmin + xmax), half (ymin + ymax),
             xmax - xmin, ymax - ymin)
            CXCYWH (normalized self)
  | XYWH =>
      let '(xmin, ymin, w, h) := coordinates self in
      mkBox (xmin + half w, ymin + half h, w, h) CXCYWH (normalized self)
  end.

(** The [case _] arms with [assert_never] have no counterpart: the three
    constructors are all there is. *)
Definition convert (self : BoundingBox F) (fmt : BoundingBoxFormat)
  : BoundingBox F :=
  match fmt with
  | XYXY => to_xyxy self
  | XYWH => to_xywh self
  | CXCYWH => to_cxcywh self
  end.

End Methods.
End Box.

(** A box of floats among the boxes of numbers. *)
Definition as_numbers (b : BoundingBox float) : BoundingBox number :=
  let '(c0, c1, c2, c3) := coordinates b in
  mkBox (Float c0, Float c1, Float c2, Float c3) (format b) (normalized b).

(** "Within floating-point tolerance", the wording of the specification for
    the round trip, read as the comparison of [math.isclose]: equal values
    are close, an infinity is close to nothing else, and otherwise the
    difference is held against the relative and the absolute tolerance. *)
Definition isclose (rel_tol abs_tol a b : float) : bool :=
  if PrimFloat.eqb a b then true
  else if PrimFloat.is_infinity a || PrimFloat.is_infinity b then false
  else
    let diff := PrimFloat.abs (b - a)%float in
    (PrimFloat.leb diff (PrimFloat.abs (rel_tol * b)%float)
     || PrimFloat.leb diff (PrimFloat.abs (rel_tol * a)%float))
    || PrimFloat.leb diff abs_tol.

Definition coordinates_close (rel_tol abs_tol : float)
  (p q : float * float * float * float) : bool :=
  let '(p0, p1, p2, p3) := p in
  let '(q0, q1, q2, q3) := q in
  isclose rel_tol abs_tol p0 q0 && isclose rel_tol abs_tol p1 q1
  && isclose rel_tol abs_tol p2 q2 && isclose rel_tol abs_tol p3 q3.

(* ------------------------------------------------------------------------- *)
(** ** Sample, Entity, Action *)
(* ------------------------------------------------------------------------- *)

Definition SampleID := str.

Record Entity (F : Type) : Type := mkEntity {
  bbox : BoundingBox F;
  category : str
}.
Arguments mkEntity {F} _ _.
Arguments bbox {F} _.
Arguments category {F} _.

Record Action : Type := mkAction {
  verb : str;
  subject : Z;
  target : option Z;
  instrument : option Z
}.

Record Sample (F : Type) : Type := mkSample {
  image_path : Path;
  entities : list (Entity F);
  actions : list Action;
  splits : list str
}.
Arguments mkSample {F} _ _ _ _.
Arguments image_path {F} _.
Arguments entities {F} _.
Arguments actions {F} _.
Arguments splits {F} _.

(* ------------------------------------------------------------------------- *)
(** ** dict *)
(* ------------------------------------------------------------------------- *)

(** A Python [dict] with [str] keys: the entries in insertion order, each key
    once.  Assigning to a key that is present replaces its value where it
    stands; a new key goes to the end. *)
Module Dict.
Definition t (V : Type) : Type := list (str * V).

Section Dict.
Context {V : Type}.

Definition empty : t V := [].

Fixpoint set (d : t V) (k : str) (v : V) : t V :=
  match d with
  | [] => [(k, v)]
  | (k', v') :: rest =>
      if str_eqb k' k then (k', v) :: rest else (k', v') :: set rest k v
  end.

Fixpoint get (d : t V) (k : str) : option V :=
  match d with
  | [] => None
  | (k', v') :: rest => if str_eqb k' k then Some v' else get rest k
  end.

Definition keys (d : t V) : list str := map fst d.

Definition items (d : t V) : list (str * V) := d.

Definition len (d : t V) : nat := List.length d.

(** [{k: v for k, v in kvs}] continued from [d]: the pairs are assigned
    one after the other. *)
Definition update (d : t V) (kvs : list (str * V)) : t V :=
  fold_left (fun acc kv => set acc (fst kv) (snd kv)) kvs d.
End Dict.
End Dict.

(* ------------------------------------------------------------------------- *)
(** ** The files of a dataset folder *)
(* ------------------------------------------------------------------------- *)

(** What [json.load] returns for the records of a split manifest that
    follows the layout of the dataset: every record has the keys the loader
    reads, with a string id, a JSON array of numbers of any length for
    [bbox], and an int or [null] ([None]) for [target] and [instrument].
    Manifests outside this layout (a missing key, a value of another kind)
    make the loader raise [KeyError] or [TypeError] where it reads them;
    they are not among the inputs of this model, and no statement below
    says that a folder loads or lists the ways in which it can fail. *)
Record EntityData (F : Type) : Type := mkEntityData {
  data_bbox : list F;
  data_category : str
}.
Arguments mkEntityData {F} _ _.
Arguments data_bbox {F} _.
Arguments data_category {F} _.

Record ActionData : Type := mkActionData {
  data_verb : str;
  data_subject : Z;
  data_target : option Z;
  data_instrument : option Z
}.

Record SampleData (F : Type) : Type := mkSampleData {
  data_id : str;
  data_entities : list (EntityData F);
  data_actions : list ActionData
}.
Arguments mkSampleData {F} _ _ _.
Arguments data_id {F} _.
Arguments data_entities {F} _.
Arguments data_actions {F} _.

(** The folder the loader reads: each file is absent ([None]) or holds its
    parsed content.  A file that is there but cannot be opened or is not
    JSON is not among the inputs of this model either. *)
Record Files (F : Type) : Type := mkFiles {
  categories_json : option (list str);
  verbs_json : option (list str);
  split_json : str -> option (list (SampleData F))
}.
Arguments mkFiles {F} _ _ _.
Arguments categories_json {F} _.
Arguments verbs_json {F} _.
Arguments split_json {F} _ _.

(** A [for] loop that appends one result per element and stops at the first
    exception. *)
Fixpoint for_each {A B} (f : A -> result B) (l : list A) : result (list B) :=
  match l with
  | [] => Ok []
  | a :: rest =>
      bind (f a) (fun b => bind (for_each f rest) (fun bs => Ok (b :: bs)))
  end.

(* ------------------------------------------------------------------------- *)
(** ** Dataset and H2ODataset *)
(* ------------------------------------------------------------------------- *)

(** The [Dataset] protocol. *)
Module Dataset.
Class t (F D : Type) : Type := {
  categories : D -> list str;
  verbs : D -> list str;
  splits : D -> list str;
  __len__ : D -> nat;
  __iter__ : D -> list (SampleID * Sample F);
  __getitem__ : D -> SampleID -> result (Sample F)
}.
End Dataset.

Module H2ODataset.
Section H2O.
Context {F : Type} `{PyFloat F}.
Local Open Scope py_scope.

Record t : Type := mk {
  _path : Path;
  _categories : list str;
  _verbs : list str;
  _samples : Dict.t (Sample F)
}.

Definition categories (self : t) : list str := _categories self.

Definition verbs (self : t) : list str := _verbs self.

(** The property returns the same literal list for every instance. *)
Definition splits : list str := [lit "train"; lit "test"].

Definition __len__ (self : t) : nat := Dict.len (_samples self).

Definition __iter__ (self : t) : list (SampleID * Sample F) :=
  Dict.items (_samples self).

Definition __getitem__ (self : t) (id : SampleID) : result (Sample F) :=
  match Dict.get (_samples self) id with
  | Some sample => Ok sample
  | None => Err (KeyError id)
  end.

Definition _get_categories (path : Path) (fs : Files F)
  : result (list str) :=
  match categories_json fs with
  | Some l => Ok l
  | None => Err (FileNotFoundError (path / lit "categories.json"))
  end.

Definition _get_verbs (path : Path) (fs : Files F) : result (list str) :=
  match verbs_json fs with
  | Some l => Ok l
  | None => Err (FileNotFoundError (path / lit "verbs.json"))
  end.

Definition make_entity (entity_data : EntityData F) : result (Entity F) :=
  box <- Box.make (data_bbox entity_data) XYXY true ;;
  Ok (mkEntity box (data_category entity_data)).

Definition make_action (action_data : ActionData) : Action :=
  mkAction (data_verb action_data) (data_subject action_data)
           (data_target action_data) (data_instrument action_data).

(** The body of the loop over the records of one manifest. *)
Definition make_sample (path : Path) (split : str)
  (sample_data : SampleData F) : result (SampleID * Sample F) :=
  let id := data_id sample_data in
  let image := (path / lit "images" / split / (id ++ lit ".jpg"))%path in
  entities <- for_each make_entity (data_entities sample_data) ;;
  let actions := map make_action (data_actions sample_data) in
  Ok (id, mkSample image entities actions [split]).

Definition _get_samples (path : Path) (fs : Files F) (split : str)
  : result (list (SampleID * Sample F)) :=
  match split_json fs split with
  | None => Err (FileNotFoundError (path / (split ++ lit ".json")))
  | Some data => for_each (make_sample path split) data
  end.

(** The dictionary comprehension of [__init__]: the splits in order, and
    within a split the samples in order, each assigned to its id. *)
Fixpoint load_splits (path : Path) (fs : Files F) (ss : list str)
  (acc : Dict.t (Sample F)) : result (Dict.t (Sample F)) :=
  match ss with
  | [] => Ok acc
  | split :: rest =>
      samples <- _get_samples path fs split ;;
      load_splits path fs rest (Dict.update acc samples)
  end.

Definition __init__ (path : Path) (fs : Files F) : result t :=
  categories <- _get_categories path fs ;;
  verbs <- _get_verbs path fs ;;
  samples <- load_splits path fs splits Dict.empty ;;
  Ok (mk path categories verbs samples).

End H2O.
Arguments t F : clear implicits.

#[export] Instance dataset {F : Type} `{PyFloat F} : Dataset.t F (t F) := {
  Dataset.categories := categories;
  Dataset.verbs := verbs;
  Dataset.splits := fun _ => splits;
  Dataset.__len__ := __len__;
  Dataset.__iter__ := __iter__;
  Dataset.__getitem__ := __getitem__
}.
End H2ODataset.

(* ------------------------------------------------------------------------- *)
(** ** Vocabulary of the statements about the loader *)
(* ------------------------------------------------------------------------- *)

(** Every [bbox] array of a manifest has four elements. *)
Definition well_formed {F : Type} (data : list (SampleData F)) : Prop :=
  Forall (fun sample_data =>
            Forall (fun entity_data =>
                      List.length (data_bbox entity_data) = 4%nat)
                   (data_entities sample_data))
         data.

(** The last record of a manifest with a given id. *)
Definition last_record {F : Type} (id : SampleID) (data : list (SampleData F))
  : option (SampleData F) :=
  find (fun sample_data => str_eqb (data_id sample_data) id) (rev data).

(* ------------------------------------------------------------------------- *)
(** ** A dataset folder to run the loader on *)
(* ------------------------------------------------------------------------- *)

Module Fixture.

(** [Path("datasets/h2o")], the folder [__main__] loads. *)
Definition root : Path := PathOf (lit "datasets/h2o").

Definition train_json : list (SampleData float) :=
  [ mkSampleData (lit "0001")
      [ mkEntityData [0.125; 0.125; 0.5; 0.5]%float (lit "person") ]
      [ mkActionData (lit "kick") 0 None None ] ].

Definition test_json : list (SampleData float) :=
  [ mkSampleData (lit "0001")
      [ mkEntityData [0.25; 0.25; 0.75; 0.75]%float (lit "person");
        mkEntityData [0.5; 0.5; 1; 1]%float (lit "ball") ]
      [ mkActionData (lit "kick") 0 (Some 1%Z) None ] ].

Definition folder (train test : list (SampleData float)) : Files float :=
  mkFiles (Some [lit "person"; lit "ball"]) (Some [lit "kick"])
          (fun split =>
             if str_eqb split (lit "train") then Some train
             else if str_eqb split (lit "test") then Some test
             else None).

(** The folder of the specification's example: one sample in train.json,
    none in test.json. *)
Definition one_sample : Files float := folder train_json [].

(** The same id in both manifests. *)
Definition duplicated : Files float := folder train_json test_json.

End Fixture.

(** An entity holds what its record says: the four numbers of [bbox] as
    the coordinates of a normalized XYXY box, and the category. *)
Definition entity_of_record {F : Type} (entity_data : EntityData F)
  (entity : Entity F) : Prop :=
  (let '(c0, c1, c2, c3) := coordinates (bbox entity) in
   data_bbox entity_data = [c0; c1; c2; c3])
  /\ format (bbox entity) = XYXY
  /\ normalized (bbox entity) = true
  /\ category entity = data_category entity_data.

(** An action holds what its record says. *)
Definition action_of_record (action_data : ActionData) (action : Action)
  : Prop :=
  verb action = data_verb action_data
  /\ subject action = data_subject action_data
  /\ target action = data_target action_data
  /\ instrument action = data_instrument action_data.


Module BrokenFixture.


(** A folder with two samples, one per split. *)
Definition two_samples : Files float :=
  Fixture.folder Fixture.train_json
    [ mkSampleData (lit "0002")
        [ mkEntityData [0.5; 0.5; 1; 1]%float (lit "ball") ] [] ].

End BrokenFixture.

(* ------------------------------------------------------------------------- *)
(** ** The action table of the viewer *)
(* ------------------------------------------------------------------------- *)


Module HOIWidget.





End HOIWidget.

(* ========================================================================= *)
(** * Properties *)
(* ========================================================================= *)

(* ------------------------------------------------------------------------- *)
(** ** Equality of strings *)
(* ------------------------------------------------------------------------- *)

Lemma str_eqb_eq a b : str_eqb a b = true <-> a = b.
Proof. unfold str_eqb; destruct (str_eq_dec a b); split; congruence. Qed.

Lemma str_eqb_refl a : str_eqb a a = true.
Proof. now apply str_eqb_eq. Qed.

Lemma str_eqb_neq a b : a <> b -> str_eqb a b = false.
Proof. unfold str_eqb; destruct (str_eq_dec a b); congruence. Qed.

(* ------------------------------------------------------------------------- *)
(** ** Format conversion *)
(* ------------------------------------------------------------------------- *)

Section ConversionFrame.
Context {F : Type} `{PyFloat F}.

Lemma format_to_xyxy (b : BoundingBox F) : format (Box.to_xyxy b) = XYXY.
Proof.
  unfold Box.to_xyxy.
  destruct b as [[[[c0 c1] c2] c3] [] n]; reflexivity.
Qed.

Lemma format_to_xywh (b : BoundingBox F) : format (Box.to_xywh b) = XYWH.
Proof.
  unfold Box.to_xywh.
  destruct b as [[[[c0 c1] c2] c3] [] n]; reflexivity.
Qed.

Lemma format_to_cxcywh (b : BoundingBox F) :
  format (Box.to_cxcywh b) = CXCYWH.
Proof.
  unfold Box.to_cxcywh.
  destruct b as [[[[c0 c1] c2] c3] [] n]; reflexivity.
Qed.

Lemma format_convert (b : BoundingBox F) (f : BoundingBoxFormat) :
  format (Box.convert b f) = f.
Proof.
  destruct f; cbn;
    auto using format_to_xyxy, format_to_xywh, format_to_cxcywh.
Qed.

Lemma normalized_convert (b : BoundingBox F) (f : BoundingBoxFormat) :
  normalized (Box.convert b f) = normalized b.
Proof.
  destruct b as [[[[c0 c1] c2] c3] [] n], f; reflexivity.
Qed.

Lemma convert_same_format (b : BoundingBox F) :
  Box.convert b (format b) = b.
Proof.
  destruct b as [[[[c0 c1] c2] c3] [] n]; reflexivity.
Qed.
End ConversionFrame.

Local Open Scope float_scope.

(** C1.  The conversions compute the stated formulas in binary64: for all
    coordinates and either value of the flag, [to_xyxy] takes XYWH
    [(x, y, w, h)] to [(x, y, x+w, y+h)] and CXCYWH [(cx, cy, w, h)] to
    [(cx-w/2, cy-h/2, cx+w/2, cy+h/2)], and [to_xywh] takes XYXY
    [(xmin, ymin, xmax, ymax)] to [(xmin, ymin, xmax-xmin, ymax-ymin)].
    On the three boxes of the specification: XYWH (10, 20, 30, 40) becomes
    XYXY (10, 20, 40, 60), CXCYWH (25, 40, 30, 40) becomes
    XYXY (10, 20, 40, 60), and XYXY (10, 20, 40, 60) becomes
    XYWH (10, 20, 30, 40). *)
Theorem conversion_formulas :
  (forall (x y w h : float) (n : bool),
      Box.to_xyxy (mkBox (x, y, w, h) XYWH n)
      = mkBox (x, y, x + w, y + h) XYXY n)
  /\ (forall (cx cy w h : float) (n : bool),
      Box.to_xyxy (mkBox (cx, cy, w, h) CXCYWH n)
      = mkBox (cx - w / 2, cy - h / 2, cx + w / 2, cy + h / 2) XYXY n)
  /\ (forall (xmin ymin xmax ymax : float) (n : bool),
      Box.to_xywh (mkBox (xmin, ymin, xmax, ymax) XYXY n)
      = mkBox (xmin, ymin, xmax - xmin, ymax - ymin) XYWH n)
  /\ (forall n : bool,
      Box.to_xyxy (mkBox (10, 20, 30, 40) XYWH n)
      = mkBox (10, 20, 40, 60) XYXY n
      /\ Box.to_xyxy (mkBox (25, 40, 30, 40) CXCYWH n)
         = mkBox (10, 20, 40, 60) XYXY n
      /\ Box.to_xywh (mkBox (10, 20, 40, 60) XYXY n)
         = mkBox (10, 20, 30, 40) XYWH n).
Proof.
  repeat split; intros; try reflexivity; vm_compute; reflexivity.
Qed.

(** C5.  Each of [to_xyxy], [to_xywh], [to_cxcywh] keeps the [normalized]
    flag of its receiver, returns the receiver itself when it is already in
    the target format, and so is idempotent. *)
Theorem conversions_frame (F : Type) (A : PyFloat F) (b : BoundingBox F) :
  (normalized (Box.to_xyxy b) = normalized b
   /\ normalized (Box.to_xywh b) = normalized b
   /\ normalized (Box.to_cxcywh b) = normalized b)
  /\ ((format b = XYXY -> Box.to_xyxy b = b)
      /\ (format b = XYWH -> Box.to_xywh b = b)
      /\ (format b = CXCYWH -> Box.to_cxcywh b = b))
  /\ (Box.to_xyxy (Box.to_xyxy b) = Box.to_xyxy b
      /\ Box.to_xywh (Box.to_xywh b) = Box.to_xywh b
      /\ Box.to_cxcywh (Box.to_cxcywh b) = Box.to_cxcywh b).
Proof.
  split; [| split].
  - pose proof (normalized_convert b XYXY).
    pose proof (normalized_convert b XYWH).
    pose proof (normalized_convert b CXCYWH).
    auto.
  - unfold Box.to_xyxy, Box.to_xywh, Box.to_cxcywh.
    repeat split; intros E; rewrite E; reflexivity.
  - unfold Box.to_xyxy at 1, Box.to_xywh at 1, Box.to_cxcywh at 1.
    rewrite format_to_xyxy, format_to_xywh, format_to_cxcywh.
    auto.
Qed.


(* ------------------------------------------------------------------------- *)
(** ** Round trip of a conversion *)
(* ------------------------------------------------------------------------- *)

Lemma Qc_two : Q2Qc 2 = (1 + 1)%Qc.
Proof. apply Qc_is_canon; reflexivity. Qed.

(** With exact arithmetic, converting to any format and back gives the box
    one started from. *)
Lemma convert_roundtrip_exact (b : BoundingBox Qc) (f : BoundingBoxFormat) :
  Box.convert (Box.convert b f) (format b) = b.
Proof.
  destruct b as [[[[c0 c1] c2] c3] [] n], f; try reflexivity;
    cbn; unfold half; cbn; rewrite ?Qc_two;
    repeat f_equal; field; discriminate.
Qed.

(** An example of cancellation rather than overflow: with the coordinates
    XYWH (2^60, 0, 1, 0) the corner [x + w] rounds to [x], and the width
    comes back as 0, which [math.isclose] with its default tolerances (the
    relative one, 1e-09, is written in hexadecimal below) does
    not take for 1. *)
Example convert_roundtrip_cancellation :
  let b := mkBox (0x1p60, 0, 1, 0) XYWH false in
  Box.convert (Box.convert b XYXY) (format b) = mkBox (0x1p60, 0, 0, 0) XYWH false
  /\ isclose 0x1.12e0be826d695p-30 0 0 1 = false.
Proof. split; vm_compute; reflexivity. Qed.

(** C2, as stated, fails.  The box XYWH (2^1023, 0, 2^1023, 0) has finite
    coordinates; its XYXY corner [x + w] overflows to infinity, and the way
    back gives the width infinity, which no tolerance takes for 2^1023. *)
Lemma convert_roundtrip_counterexample :
  let b := mkBox (0x1p1023, 0, 0x1p1023, 0) XYWH false in
  let b' := Box.convert (Box.convert b XYXY) (format b) in
  b' = mkBox (0x1p1023, 0, infinity, 0) XYWH false
  /\ forall rel_tol abs_tol : float,
      coordinates_close rel_tol abs_tol (coordinates b') (coordinates b)
      = false.
Proof. split; intros; vm_compute; reflexivity. Qed.

(** C2, amended.  [convert] dispatches on the three formats to [to_xyxy],
    [to_xywh] and [to_cxcywh], and its result has the format asked for and
    the receiver's [normalized] flag.  Converting to a format and back to
    the original one restores the format and the flag and returns the box
    itself when the target is the format it has.  For the six other pairs of
    formats it returns, in binary64 as in any arithmetic, the coordinates
    written below: each is the original coordinate, untouched or taken
    through the two conversions, such as [(x + w) - x] for the width [w].
    They are the original coordinates exactly when the arithmetic is exact
    (on the rationals), as they are in binary64 on the box (10, 20, 30, 40)
    of the specification, whatever its format and the target. *)
Theorem convert_roundtrip :
  (forall (F : Type) (A : PyFloat F) (b : BoundingBox F),
      Box.convert b XYXY = Box.to_xyxy b
      /\ Box.convert b XYWH = Box.to_xywh b
      /\ Box.convert b CXCYWH = Box.to_cxcywh b)
  /\ (forall (F : Type) (A : PyFloat F) (b : BoundingBox F)
             (f : BoundingBoxFormat),
      format (Box.convert b f) = f
      /\ normalized (Box.convert b f) = normalized b
      /\ format (Box.convert (Box.convert b f) (format b)) = format b
      /\ normalized (Box.convert (Box.convert b f) (format b)) = normalized b
      /\ Box.convert (Box.convert b (format b)) (format b) = b)
  /\ (forall (F : Type) (A : PyFloat F) (c0 c1 c2 c3 : F) (n : bool),
      let back b f := Box.convert (Box.convert b f) (format b) in
      back (mkBox (c0, c1, c2, c3) XYWH n) XYXY
      = mkBox (c0, c1, fsub (fadd c0 c2) c0, fsub (fadd c1 c3) c1) XYWH n
      /\ back (mkBox (c0, c1, c2, c3) XYWH n) CXCYWH
         = mkBox (fsub (fadd c0 (half c2)) (half c2),
                  fsub (fadd c1 (half c3)) (half c3), c2, c3) XYWH n
      /\ back (mkBox (c0, c1, c2, c3) XYXY n) XYWH
         = mkBox (c0, c1, fadd c0 (fsub c2 c0), fadd c1 (fsub c3 c1)) XYXY n
      /\ back (mkBox (c0, c1, c2, c3) XYXY n) CXCYWH
         = mkBox (fsub (half (fadd c0 c2)) (half (fsub c2 c0)),
                  fsub (half (fadd c1 c3)) (half (fsub c3 c1)),
                  fadd (half (fadd c0 c2)) (half (fsub c2 c0)),
                  fadd (half (fadd c1 c3)) (half (fsub c3 c1))) XYXY n
      /\ back (mkBox (c0, c1, c2, c3) CXCYWH n) XYXY
         = mkBox (half (fadd (fsub c0 (half c2)) (fadd c0 (half c2))),
                  half (fadd (fsub c1 (half c3)) (fadd c1 (half c3))),
                  fsub (fadd c0 (half c2)) (fsub c0 (half c2)),
                  fsub (fadd c1 (half c3)) (fsub c1 (half c3))) CXCYWH n
      /\ back (mkBox (c0, c1, c2, c3) CXCYWH n) XYWH
         = mkBox (fadd (fsub c0 (half c2)) (half c2),
                  fadd (fsub c1 (half c3)) (half c3), c2, c3) CXCYWH n)
  /\ (forall (b : BoundingBox Qc) (f : BoundingBoxFormat),
      Box.convert (Box.convert b f) (format b) = b)
  /\ (forall (g f : BoundingBoxFormat) (n : bool),
      let b := mkBox (10, 20, 30, 40) g n in
      Box.convert (Box.convert b f) (format b) = b).
Proof.
  split; [| split; [| split; [| split]]].
  - intros; repeat split.
  - intros; repeat split.
    + apply format_convert.
    + apply normalized_convert.
    + apply format_convert.
    + now rewrite !normalized_convert.
    + now rewrite !convert_same_format.
  - intros; repeat split.
  - exact convert_roundtrip_exact.
  - intros [] [] []; vm_compute; reflexivity.
Qed.

(* ------------------------------------------------------------------------- *)
(** ** Construction *)
(* ------------------------------------------------------------------------- *)

(** C7.  Constructing a box from a sequence of coordinates succeeds exactly
    when the sequence has four elements, which then are its coordinates;
    with any other length, three in particular, it raises the [ValueError]
    that reports the length. *)
Theorem make_arity (F : Type) (cs : list F) (fmt : BoundingBoxFormat)
  (norm : bool) :
  (List.length cs = 4%nat ->
     exists c0 c1 c2 c3,
       cs = [c0; c1; c2; c3]
       /\ Box.make cs fmt norm = Ok (mkBox (c0, c1, c2, c3) fmt norm))
  /\ (List.length cs <> 4%nat ->
     Box.make cs fmt norm = Err (ValueError (List.length cs)))
  /\ (forall c0 c1 c2 : F,
     Box.make [c0; c1; c2] fmt norm = Err (ValueError 3)).
Proof.
  repeat split.
  - destruct cs as [|c0 [|c1 [|c2 [|c3 [|c4 cs]]]]]; try discriminate.
    intros _. exists c0, c1, c2, c3. split; reflexivity.
  - destruct cs as [|c0 [|c1 [|c2 [|c3 [|c4 cs]]]]]; try reflexivity.
    intros E; now contradiction E.
Qed.

(** Instances of [make_arity]: four coordinates are accepted, three and
    five are refused. *)
Lemma make_arity_witness :
  Box.make [10; 20; 40; 60] XYXY true = Ok (mkBox (10, 20, 40, 60) XYXY true)
  /\ Box.make [10; 20; 40] XYXY true = Err (ValueError 3)
  /\ Box.make [10; 20; 40; 60; 80] XYXY true = Err (ValueError 5).
Proof.
  split; [| split].
  - destruct (proj1 (make_arity float [10; 20; 40; 60] XYXY true) eq_refl)
      as (c0 & c1 & c2 & c3 & E & R).
    injection E as <- <- <- <-. exact R.
  - apply (proj2 (proj2 (make_arity float [10; 20; 40] XYXY true))).
  - apply (proj1 (proj2 (make_arity float [10; 20; 40; 60; 80] XYXY true))).
    discriminate.
Defined.


(* ------------------------------------------------------------------------- *)
(** ** Normalization *)
(* ------------------------------------------------------------------------- *)

Section Normalization.
Context {F : Type} `{PyFloat F}.

Lemma truediv_ok (c d : F) (n : Z) :
  of_int n = Some d -> n <> 0%Z -> truediv c n = Ok (fdiv c d).
Proof.
  intros E N. cbn [truediv float_like]. unfold float_truediv. rewrite E.
  destruct (Z.eqb_spec n 0); [contradiction | reflexivity].
Qed.

Lemma times_ok (c d : F) (n : Z) :
  of_int n = Some d -> times c n = Ok (fmul c d).
Proof.
  intros E. cbn [times float_like]. unfold float_times. now rewrite E.
Qed.

Lemma normalize_normalized (b : BoundingBox F) (size : Z * Z) :
  normalized b = true -> Box.normalize b size = Ok b.
Proof. intros E. unfold Box.normalize. now rewrite E. Qed.

Lemma normalize_ok (c0 c1 c2 c3 fw fh : F) (fmt : BoundingBoxFormat)
  (w h : Z) :
  of_int w = Some fw -> of_int h = Some fh -> w <> 0%Z -> h <> 0%Z ->
  Box.normalize (mkBox (c0, c1, c2, c3) fmt false) (w, h)
  = Ok (mkBox (fdiv c0 fw, fdiv c1 fh, fdiv c2 fw, fdiv c3 fh) fmt true).
Proof.
  intros Ew Eh Nw Nh. unfold Box.normalize; cbn [normalized coordinates format].
  rewrite !(fun c => truediv_ok c _ _ Ew Nw), !(fun c => truediv_ok c _ _ Eh Nh).
  reflexivity.
Qed.

Lemma denormalize_ok (c0 c1 c2 c3 fw fh : F) (fmt : BoundingBoxFormat)
  (w h : Z) :
  of_int w = Some fw -> of_int h = Some fh ->
  Box.denormalize (mkBox (c0, c1, c2, c3) fmt true) (w, h)
  = Ok (mkBox (fmul c0 fw, fmul c1 fh, fmul c2 fw, fmul c3 fh) fmt false).
Proof.
  intros Ew Eh. unfold Box.denormalize;
    cbn [normalized coordinates format negb].
  rewrite !(fun c => times_ok c _ _ Ew), !(fun c => times_ok c _ _ Eh).
  reflexivity.
Qed.

End Normalization.

(** C3, as stated, fails: a box that is not normalized and a size of width
    zero give no box, the first division raises. *)
Lemma normalize_counterexample :
  Box.normalize (mkBox (10, 20, 40, 60) XYXY false) (0, 480)%Z
  = Err ZeroDivisionError.
Proof. vm_compute; reflexivity. Qed.

(** C3, amended.  A normalized box is returned as it is, whatever the size.
    For a box that is not normalized and a size whose width and height are
    not zero and convert to the floats [fw] and [fh], [normalize] returns
    the box with the first and third coordinates divided by [fw], the second
    and fourth by [fh], the flag set, and the format kept. *)
Theorem normalize_spec (F : Type) (A : PyFloat F) (b : BoundingBox F)
  (w h : Z) :
  (normalized b = true -> Box.normalize b (w, h) = Ok b)
  /\ (normalized b = false ->
      forall fw fh : F,
        of_int w = Some fw -> of_int h = Some fh ->
        w <> 0%Z -> h <> 0%Z ->
        exists b' : BoundingBox F,
          Box.normalize b (w, h) = Ok b'
          /\ coordinates b'
             = (let '(c0, c1, c2, c3) := coordinates b in
                (fdiv c0 fw, fdiv c1 fh, fdiv c2 fw, fdiv c3 fh))
          /\ normalized b' = true
          /\ format b' = format b).
Proof.
  split.
  - apply normalize_normalized.
  - destruct b as [[[[c0 c1] c2] c3] fmt n]; cbn.
    intros -> fw fh Ew Eh Nw Nh.
    eexists. split; [eapply normalize_ok; eassumption |].
    repeat split.
Qed.

(** An instance of [normalize_spec] in binary64: the box (10, 20, 40, 60)
    in an image of 640 by 480, and the same box once normalized. *)
Lemma normalize_spec_witness :
  (exists b',
      Box.normalize (mkBox (10, 20, 40, 60) XYXY false) (640, 480)%Z = Ok b'
      /\ coordinates b' = (10 / 640, 20 / 480, 40 / 640, 60 / 480)
      /\ normalized b' = true
      /\ format b' = XYXY)
  /\ Box.normalize (mkBox (0.5, 0.5, 1, 1) XYXY true) (0, 0)%Z
     = Ok (mkBox (0.5, 0.5, 1, 1) XYXY true).
Proof.
  split.
  - apply (proj2 (normalize_spec float binary64
                    (mkBox (10, 20, 40, 60) XYXY false) 640 480)
             eq_refl 640 480); try reflexivity; discriminate.
  - apply (proj1 (normalize_spec float binary64
                    (mkBox (0.5, 0.5, 1, 1) XYXY true) 0 0)).
    reflexivity.
Defined.

(** C4, as stated, fails in binary64: the box XYXY (31, 39, 62, 78) of a
    1920 by 1080 image does not come back from [normalize] followed by
    [denormalize], since 31/1920*1920 and 39/1080*1080 are rounded twice. *)
Lemma normalize_denormalize_counterexample :
  let b := mkBox (31, 39, 62, 78) XYXY false in
  let size := (1920, 1080)%Z in
  (n <- Box.normalize b size ;; Box.denormalize n size)%py
  = Ok (mkBox (0x1.f000000000001p+4, 0x1.37fffffffffffp+5,
               0x1.f000000000001p+5, 0x1.37fffffffffffp+6) XYXY false)
  /\ PrimFloat.eqb 0x1.f000000000001p+4 31 = false
  /\ PrimFloat.eqb 0x1.37fffffffffffp+5 39 = false.
Proof. repeat split; vm_compute; reflexivity. Qed.

Lemma Q2Qc_inject_Z_nonzero (n : Z) : n <> 0%Z -> Q2Qc (inject_Z n) <> 0%Qc.
Proof.
  intros N E. apply Q2Qc_eq_iff in E.
  unfold Qeq in E; cbn in E. lia.
Qed.

(** With exact arithmetic [denormalize] undoes [normalize] for every size
    without a zero dimension. *)
Lemma normalize_denormalize_exact (b : BoundingBox Qc) (w h : Z) :
  normalized b = false -> w <> 0%Z -> h <> 0%Z ->
  (n <- Box.normalize b (w, h) ;; Box.denormalize n (w, h))%py = Ok b.
Proof.
  destruct b as [[[[c0 c1] c2] c3] fmt n]; cbn [normalized].
  intros -> Nw Nh.
  rewrite (@normalize_ok Qc exact c0 c1 c2 c3 (Q2Qc (inject_Z w)) (Q2Qc (inject_Z h))
             fmt w h eq_refl eq_refl Nw Nh).
  cbn [bind].
  rewrite (@denormalize_ok Qc exact _ _ _ _ (Q2Qc (inject_Z w)) (Q2Qc (inject_Z h))
             fmt w h eq_refl eq_refl).
  pose proof (Q2Qc_inject_Z_nonzero w Nw).
  pose proof (Q2Qc_inject_Z_nonzero h Nh).
  cbn. repeat f_equal; field; assumption.
Qed.

(** C4, amended.  For a box that is not normalized and a positive size
    whose width and height convert to the floats [fw] and [fh],
    [normalize] followed by [denormalize] returns a box with the same format,
    not normalized, whose coordinates are [(c / fw) * fw] and
    [(c / fh) * fh]: the original ones divided and multiplied back.  With
    exact arithmetic that is the original box. *)
Theorem normalize_denormalize :
  (forall (F : Type) (A : PyFloat F) (c0 c1 c2 c3 : F)
          (fmt : BoundingBoxFormat) (w h : Z) (fw fh : F),
      (0 < w)%Z -> (0 < h)%Z ->
      of_int w = Some fw -> of_int h = Some fh ->
      (n <- Box.normalize (mkBox (c0, c1, c2, c3) fmt false) (w, h) ;;
       Box.denormalize n (w, h))%py
      = Ok (mkBox (fmul (fdiv c0 fw) fw, fmul (fdiv c1 fh) fh,
                   fmul (fdiv c2 fw) fw, fmul (fdiv c3 fh) fh) fmt false))
  /\ (forall (b : BoundingBox Qc) (w h : Z),
      normalized b = false -> (0 < w)%Z -> (0 < h)%Z ->
      (n <- Box.normalize b (w, h) ;; Box.denormalize n (w, h))%py = Ok b).
Proof.
  split.
  - intros F A c0 c1 c2 c3 fmt w h fw fh Pw Ph Ew Eh.
    rewrite (normalize_ok c0 c1 c2 c3 fw fh fmt w h Ew Eh) by lia.
    cbn [bind]. now apply denormalize_ok.
  - intros b w h E Pw Ph. apply normalize_denormalize_exact; [exact E | lia ..].
Qed.

(** Instances of [normalize_denormalize]: in binary64 the box
    (10, 20, 40, 60) of a 640 by 480 image, where no rounding takes place,
    and on the rationals the box (31, 39, 62, 78) of a 1920 by 1080 image. *)
Lemma normalize_denormalize_witness :
  (n <- Box.normalize (mkBox (10, 20, 40, 60) XYXY false) (640, 480)%Z ;;
   Box.denormalize n (640, 480)%Z)%py
  = Ok (mkBox (10, 20, 40, 60) XYXY false)
  /\ (let b := mkBox (Q2Qc 31, Q2Qc 39, Q2Qc 62, Q2Qc 78) XYXY false in
      (n <- Box.normalize b (1920, 1080)%Z ;;
       Box.denormalize n (1920, 1080)%Z)%py = Ok b).
Proof.
  split.
  - rewrite (proj1 normalize_denormalize float binary64 10 20 40 60 XYXY
               640%Z 480%Z 640 480);
      [vm_compute; reflexivity | reflexivity ..].
  - apply (proj2 normalize_denormalize); reflexivity.
Defined.

(** C10, as stated, fails on one point: on a box of floats, with a height
    of zero and a width too large to convert to a float, the first division
    raises [OverflowError] before the height is looked at. *)
Lemma normalize_zero_size_counterexample :
  Box.normalize (mkBox (10, 20, 40, 60) XYXY false) (10 ^ 400, 0)%Z
  = Err OverflowError.
Proof. vm_compute; reflexivity. Qed.

(** The division of a coordinate, int or float, by an int: a zero divisor
    raises [ZeroDivisionError]; another one gives a float or raises
    [OverflowError], nothing else. *)
Lemma number_truediv_zero (c : number) : truediv c 0 = Err ZeroDivisionError.
Proof. destruct c; reflexivity. Qed.

Lemma number_truediv_nonzero (c : number) (n : Z) :
  n <> 0%Z ->
  (exists q, truediv c n = Ok (Float q)) \/ truediv c n = Err OverflowError.
Proof.
  intros N. destruct c as [k | f]; cbn [truediv python_number].
  - unfold int_truediv. destruct (Z.eqb_spec n 0); [contradiction |].
    destruct (round_quotient k n); cbn [bind]; eauto.
  - unfold float_truediv; cbn [of_int binary64].
    destruct (float_of_int n); cbn [bind]; [| now right].
    destruct (Z.eqb_spec n 0); [contradiction |]. cbn [bind]. eauto.
Qed.

Lemma number_truediv_float (f : float) (n : Z) :
  n <> 0%Z ->
  truediv (Float f) n
  = match float_of_int n with
    | Some d => Ok (Float (f / d))
    | None => Err OverflowError
    end.
Proof.
  intros N. cbn [truediv python_number]. unfold float_truediv.
  cbn [of_int binary64 fdiv]. destruct (float_of_int n); [| reflexivity].
  destruct (Z.eqb_spec n 0); [contradiction | reflexivity].
Qed.

Lemma number_truediv_int (k n : Z) :
  n <> 0%Z ->
  truediv (Int k) n
  = match round_quotient k n with
    | Some q => Ok (Float q)
    | None => Err OverflowError
    end.
Proof.
  intros N. cbn [truediv python_number]. unfold int_truediv.
  destruct (Z.eqb_spec n 0); [contradiction |].
  now destruct (round_quotient k n).
Qed.

(** A box of float coordinates, seen as a box of numbers, is normalized and
    denormalized as the box of floats is. *)
Lemma normalize_as_numbers (b : BoundingBox float) (size : Z * Z) :
  Box.normalize (as_numbers b) size
  = bind (Box.normalize b size) (fun b' => Ok (as_numbers b')).
Proof.
  destruct b as [[[[c0 c1] c2] c3] fmt n], size as [w h].
  unfold Box.normalize, as_numbers; cbn [normalized coordinates format].
  destruct n; [reflexivity |].
  cbn [truediv python_number float_like].
  destruct (float_truediv c0 w); cbn [bind]; [| reflexivity].
  destruct (float_truediv c1 h); cbn [bind]; [| reflexivity].
  destruct (float_truediv c2 w); cbn [bind]; [| reflexivity].
  destruct (float_truediv c3 h); reflexivity.
Qed.

Lemma denormalize_as_numbers (b : BoundingBox float) (size : Z * Z) :
  Box.denormalize (as_numbers b) size
  = bind (Box.denormalize b size) (fun b' => Ok (as_numbers b')).
Proof.
  destruct b as [[[[c0 c1] c2] c3] fmt n], size as [w h].
  unfold Box.denormalize, as_numbers; cbn [normalized coordinates format].
  destruct n; cbn [negb]; [| reflexivity].
  cbn [times python_number float_like].
  destruct (float_times c0 w); cbn [bind]; [| reflexivity].
  destruct (float_times c1 h); cbn [bind]; [| reflexivity].
  destruct (float_times c2 w); cbn [bind]; [| reflexivity].
  destruct (float_times c3 h); reflexivity.
Qed.

(** C10, amended.  For a box that is not normalized, with coordinates that
    are ints or floats, [normalize] divides without a guard.  A width of zero
    raises [ZeroDivisionError].  With a height of zero and another width, the
    first division, of the first coordinate by the width, comes first: when
    it gives a value the next division raises [ZeroDivisionError], and when
    it raises, which it does with [OverflowError] only (a float coordinate
    and a width too large to convert to a float, or two ints with a quotient
    too large for a float), that is the exception.  So a size with a zero
    dimension never gives a box, and [denormalize] after [normalize] cannot
    give the box back there: the inverse property needs the positive size,
    and with a positive size [ZeroDivisionError] is not raised. *)
Theorem normalize_zero_size (c0 c1 c2 c3 : number)
  (fmt : BoundingBoxFormat) (w h : Z) :
  let b := mkBox (c0, c1, c2, c3) fmt false in
  (w = 0%Z -> Box.normalize b (w, h) = Err ZeroDivisionError)
  /\ (h = 0%Z -> w <> 0%Z ->
      (forall q, truediv c0 w = Ok q ->
                 Box.normalize b (w, h) = Err ZeroDivisionError)
      /\ (forall e, truediv c0 w = Err e ->
                    e = OverflowError
                    /\ Box.normalize b (w, h) = Err OverflowError)
      /\ (forall f, c0 = Float f ->
                    (float_of_int w <> None ->
                     Box.normalize b (w, h) = Err ZeroDivisionError)
                    /\ (float_of_int w = None ->
                        Box.normalize b (w, h) = Err OverflowError))
      /\ (forall k, c0 = Int k ->
                    (round_quotient k w <> None ->
                     Box.normalize b (w, h) = Err ZeroDivisionError)
                    /\ (round_quotient k w = None ->
                        Box.normalize b (w, h) = Err OverflowError)))
  /\ (w = 0%Z \/ h = 0%Z ->
      (forall b' : BoundingBox number, Box.normalize b (w, h) <> Ok b')
      /\ (n <- Box.normalize b (w, h) ;; Box.denormalize n (w, h))%py
         <> Ok b)
  /\ ((0 < w)%Z -> (0 < h)%Z ->
      Box.normalize b (w, h) <> Err ZeroDivisionError).
Proof.
  cbv zeta. unfold Box.normalize; cbn [normalized coordinates format].
  assert (Z0 : w = 0%Z ->
               (n0 <- truediv c0 w ;; n1 <- truediv c1 h ;;
                n2 <- truediv c2 w ;; n3 <- truediv c3 h ;;
                Ok (mkBox (n0, n1, n2, n3) fmt true))%py
               = Err ZeroDivisionError).
  { intros ->. now rewrite number_truediv_zero. }
  assert (H0 : h = 0%Z -> forall q, truediv c0 w = Ok q ->
               (n0 <- truediv c0 w ;; n1 <- truediv c1 h ;;
                n2 <- truediv c2 w ;; n3 <- truediv c3 h ;;
                Ok (mkBox (n0, n1, n2, n3) fmt true))%py
               = Err ZeroDivisionError).
  { intros -> q ->. cbn [bind]. now rewrite number_truediv_zero. }
  assert (E0 : forall e, truediv c0 w = Err e ->
               (n0 <- truediv c0 w ;; n1 <- truediv c1 h ;;
                n2 <- truediv c2 w ;; n3 <- truediv c3 h ;;
                Ok (mkBox (n0, n1, n2, n3) fmt true))%py
               = Err e).
  { now intros e ->. }
  split; [exact Z0 |]. split; [| split].
  - intros Hh Nw. split; [exact (H0 Hh) |]. split; [| split].
    + intros e Ee.
      destruct (number_truediv_nonzero c0 w Nw) as [[q Eq] | Eo];
        [congruence |].
      assert (e = OverflowError) as -> by congruence.
      split; [reflexivity | now apply E0].
    + intros f ->. pose proof (number_truediv_float f w Nw) as T.
      destruct (float_of_int w) as [d |].
      * split; [intros _; exact (H0 Hh _ T) | intros [=]].
      * split; [intros C; now contradiction C | intros _; now apply E0].
    + intros k ->. pose proof (number_truediv_int k w Nw) as T.
      destruct (round_quotient k w) as [q |].
      * split; [intros _; exact (H0 Hh _ T) | intros [=]].
      * split; [intros C; now contradiction C | intros _; now apply E0].
  - intros Z.
    assert (Fails : exists e,
               (n0 <- truediv c0 w ;; n1 <- truediv c1 h ;;
                n2 <- truediv c2 w ;; n3 <- truediv c3 h ;;
                Ok (mkBox (n0, n1, n2, n3) fmt true))%py = Err e).
    { destruct Z as [Zw | Zh]; [rewrite (Z0 Zw); eauto |].
      assert (T : (exists q, truediv c0 w = Ok q)
                  \/ (exists e, truediv c0 w = Err e))
        by (destruct (truediv c0 w); eauto).
      destruct T as [[q T] | [e T]].
      - rewrite (H0 Zh q T). eauto.
      - rewrite (E0 e T). eauto. }
    destruct Fails as [e ->]. split; [discriminate | cbn [bind]; discriminate].
  - intros Pw Ph.
    destruct (number_truediv_nonzero c0 w) as [[q0 ->] | ->];
      [lia | | discriminate]; cbn [bind].
    destruct (number_truediv_nonzero c1 h) as [[q1 ->] | ->];
      [lia | | discriminate]; cbn [bind].
    destruct (number_truediv_nonzero c2 w) as [[q2 ->] | ->];
      [lia | | discriminate]; cbn [bind].
    destruct (number_truediv_nonzero c3 h) as [[q3 ->] | ->];
      [lia | | discriminate]; cbn [bind].
    discriminate.
Qed.

(** Instances of [normalize_zero_size] at the size (10^400, 0): the box of
    ints (10, 20, 40, 60) raises [ZeroDivisionError], 10/10^400 being 0.0,
    and the box of floats raises [OverflowError]; both raise
    [ZeroDivisionError] at the size (0, 480), and neither at (640, 480). *)
Lemma normalize_zero_size_witness :
  let ints := mkBox (Int 10, Int 20, Int 40, Int 60) XYXY false in
  let floats :=
    mkBox (Float 10, Float 20, Float 40, Float 60) XYXY false in
  (Box.normalize ints (10 ^ 400, 0)%Z = Err ZeroDivisionError
   /\ Box.normalize floats (10 ^ 400, 0)%Z = Err OverflowError)
  /\ (Box.normalize ints (0, 480)%Z = Err ZeroDivisionError
      /\ Box.normalize floats (0, 480)%Z = Err ZeroDivisionError)
  /\ (Box.normalize ints (640, 480)%Z <> Err ZeroDivisionError
      /\ Box.normalize floats (640, 480)%Z <> Err ZeroDivisionError).
Proof.
  cbv zeta.
  pose proof (normalize_zero_size (Int 10) (Int 20) (Int 40) (Int 60) XYXY)
    as I.
  pose proof (normalize_zero_size (Float 10) (Float 20) (Float 40)
                (Float 60) XYXY) as R.
  cbv zeta in I, R.
  split; [| split]; split.
  - refine (proj1 (proj2 (proj2 (proj2 (proj1 (proj2 (I (10 ^ 400)%Z 0%Z))
              eq_refl _))) 10%Z eq_refl) _);
      [discriminate | vm_compute; discriminate].
  - refine (proj2 (proj1 (proj2 (proj2 (proj1 (proj2 (R (10 ^ 400)%Z 0%Z))
              eq_refl _))) 10%float eq_refl) _);
      [discriminate | vm_compute; reflexivity].
  - exact (proj1 (I 0%Z 480%Z) eq_refl).
  - exact (proj1 (R 0%Z 480%Z) eq_refl).
  - apply (proj2 (proj2 (proj2 (I 640%Z 480%Z)))); reflexivity.
  - apply (proj2 (proj2 (proj2 (R 640%Z 480%Z)))); reflexivity.
Defined.


(* ------------------------------------------------------------------------- *)
(** ** Parsing a format *)
(* ------------------------------------------------------------------------- *)

Section FormatParsing.
Import Format.
Variable unicode_upper : N -> list N.

Local Abbreviation upper := (Format.upper unicode_upper).

Lemma getitem_name (key : str) (f : BoundingBoxFormat) :
  getitem key = Ok f <-> key = name f.
Proof.
  unfold getitem, members, lookup. split.
  - destruct (str_eq_dec (lit "XYXY") key) as [E1 | N1];
      [rewrite (proj2 (str_eqb_eq _ _) E1) | rewrite (str_eqb_neq _ _ N1)].
    { intros [= <-]. now symmetry. }
    destruct (str_eq_dec (lit "XYWH") key) as [E2 | N2];
      [rewrite (proj2 (str_eqb_eq _ _) E2) | rewrite (str_eqb_neq _ _ N2)].
    { intros [= <-]. now symmetry. }
    destruct (str_eq_dec (lit "CXCYWH") key) as [E3 | N3];
      [rewrite (proj2 (str_eqb_eq _ _) E3) | rewrite (str_eqb_neq _ _ N3)].
    { intros [= <-]. now symmetry. }
    discriminate.
  - intros ->. destruct f; reflexivity.
Qed.

Lemma getitem_unknown (key : str) :
  (forall f, key <> name f) -> getitem key = Err (KeyError key).
Proof.
  intros U. unfold getitem.
  destruct (lookup members key) as [f |] eqn:E; [| reflexivity].
  exfalso. apply (U f). apply getitem_name. unfold getitem. now rewrite E.
Qed.

Lemma upper_app (a b : str) : upper (a ++ b) = upper a ++ upper b.
Proof. apply flat_map_app. Qed.

Lemma upper_char_ascii (c : N) :
  (c < 128)%N ->
  exists c', upper_char unicode_upper c = [c']
             /\ (c' < 128)%N
             /\ upper_char unicode_upper c' = [c'].
Proof.
  intros L. unfold upper_char.
  destruct ((97 <=? c) && (c <=? 122))%N eqn:Low.
  - apply andb_prop in Low as [L1 L2].
    apply N.leb_le in L1, L2.
    exists (c - 32)%N. split; [reflexivity |]. split; [lia |].
    replace (97 <=? c - 32)%N with false by (symmetry; apply N.leb_gt; lia).
    cbn. replace (c - 32 <? 128)%N with true
      by (symmetry; apply N.ltb_lt; lia).
    reflexivity.
  - apply N.ltb_lt in L. rewrite L.
    exists c. split; [reflexivity |]. split; [now apply N.ltb_lt |].
    now rewrite Low, L.
Qed.

Lemma upper_idempotent_ascii (s : str) :
  Forall (fun c => (c < 128)%N) s -> upper (upper s) = upper s.
Proof.
  induction 1 as [| c s L _ IH]; [reflexivity |].
  change (upper (c :: s)) with (upper_char unicode_upper c ++ upper s).
  destruct (upper_char_ascii c L) as (c' & -> & _ & E').
  change (upper ([c'] ++ upper s))
    with (upper_char unicode_upper c' ++ upper (upper s)).
  now rewrite E', IH.
Qed.

Lemma upper_ascii_space (l : str) : Forall ascii_space l -> upper l = l.
Proof.
  induction 1 as [| c l [S L] _ IH]; [reflexivity |].
  change (upper (c :: l)) with (upper_char unicode_upper c ++ upper l).
  rewrite IH. unfold upper_char.
  replace ((97 <=? c) && (c <=? 122))%N with false.
  - apply N.ltb_lt in L. now rewrite L.
  - symmetry. apply andb_false_iff.
    destruct (N.leb_spec 97 c) as [G |]; [| now left]. right.
    unfold isspace in S.
    repeat match type of S with
           | (_ || _)%bool = true => apply orb_prop in S as [S | S]
           | (_ && _)%bool = true => apply andb_prop in S as [? S]
           end;
      repeat match goal with
             | H : (_ <=? _)%N = true |- _ => apply N.leb_le in H
             | H : (_ =? _)%N = true |- _ => apply N.eqb_eq in H
             end; lia.
Qed.

Lemma lstrip_all_space (l : str) :
  Forall (fun c => isspace c = true) l -> lstrip l = [].
Proof. induction 1 as [| c l S _ IH]; cbn; [| rewrite S]; auto. Qed.

Lemma lstrip_spaces_app (l s : str) :
  Forall (fun c => isspace c = true) l -> lstrip (l ++ s) = lstrip s.
Proof. induction 1 as [| c l S _ IH]; cbn; [| rewrite S]; auto. Qed.

Lemma rstrip_app_spaces (s r : str) :
  Forall (fun c => isspace c = true) r -> rstrip (s ++ r) = rstrip s.
Proof.
  intros S. unfold rstrip. rewrite rev_app_distr, lstrip_spaces_app; auto.
  now apply Forall_rev.
Qed.

Lemma strip_padding (l s r : str) :
  Forall (fun c => isspace c = true) l ->
  Forall (fun c => isspace c = true) r ->
  strip (l ++ s ++ r) = strip s.
Proof.
  intros Sl Sr. unfold strip. rewrite (lstrip_spaces_app l _ Sl).
  induction s as [| c s IH]; cbn [lstrip app].
  - now rewrite (lstrip_all_space r Sr).
  - destruct (isspace c); [exact IH |].
    now rewrite app_comm_cons, rstrip_app_spaces.
Qed.

End FormatParsing.

(** C6.  [from_str] takes a string to upper case, strips the whitespace
    around it and looks the result up among the member names.  So ["xyxy"],
    ["XYXY"] and [" xyxy "] all give [XYXY]; a string gives a format exactly
    when its stripped upper case is the name of that format, and any other
    string, ["bogus"] for one, raises the [KeyError] of the lookup instead
    of giving a value.  Whitespace around a string and the case of its ASCII
    letters make no difference.  This holds whatever the uppercase mapping
    of the code points outside ASCII. *)
Theorem from_str_spec (unicode_upper : N -> list N) :
  (Format.from_str unicode_upper (lit "xyxy") = Ok XYXY
   /\ Format.from_str unicode_upper (lit "XYXY") = Ok XYXY
   /\ Format.from_str unicode_upper (lit " xyxy ") = Ok XYXY)
  /\ Format.from_str unicode_upper (lit "bogus")
     = Err (KeyError (lit "BOGUS"))
  /\ (forall (s : str) (f : BoundingBoxFormat),
      Format.from_str unicode_upper s = Ok f
      <-> Format.strip (Format.upper unicode_upper s) = Format.name f)
  /\ (forall s : str,
      (forall f, Format.strip (Format.upper unicode_upper s) <> Format.name f)
      -> Format.from_str unicode_upper s
         = Err (KeyError (Format.strip (Format.upper unicode_upper s))))
  /\ (forall l s r : str,
      Forall Format.ascii_space l -> Forall Format.ascii_space r ->
      Format.from_str unicode_upper (l ++ s ++ r)
      = Format.from_str unicode_upper s)
  /\ (forall s : str,
      Forall (fun c => (c < 128)%N) s ->
      Format.from_str unicode_upper (Format.upper unicode_upper s)
      = Format.from_str unicode_upper s).
Proof.
  split; [repeat split; vm_compute; reflexivity |].
  split; [vm_compute; reflexivity |].
  split; [intros s f; apply getitem_name |].
  split; [intros s U; now apply getitem_unknown |].
  split.
  - intros l s r Sl Sr. unfold Format.from_str.
    rewrite !upper_app, (upper_ascii_space _ l Sl), (upper_ascii_space _ r Sr).
    rewrite strip_padding; [reflexivity | |];
      eapply Forall_impl; try eassumption; now intros c [S _].
  - intros s A. unfold Format.from_str.
    now rewrite upper_idempotent_ascii.
Qed.

(** A spelling in mixed case with tabs and a newline around it. *)
Example from_str_mixed_case (unicode_upper : N -> list N) :
  Format.from_str unicode_upper (9 :: 32 :: lit "cXcYwH" ++ [10])%N
  = Ok CXCYWH.
Proof. vm_compute; reflexivity. Qed.


(* ------------------------------------------------------------------------- *)
(** ** Dictionaries *)
(* ------------------------------------------------------------------------- *)

Section DictFacts.
Context {V : Type}.
Implicit Types (d : Dict.t V) (k : str) (v : V).

Lemma get_set_same d k v : Dict.get (Dict.set d k v) k = Some v.
Proof.
  induction d as [| [k' v'] d IH]; cbn.
  - now rewrite str_eqb_refl.
  - destruct (str_eqb k' k) eqn:E; cbn; rewrite E; auto.
Qed.

Lemma get_set_other d k k' v :
  k <> k' -> Dict.get (Dict.set d k v) k' = Dict.get d k'.
Proof.
  intros N. induction d as [| [k0 v0] d IH]; cbn.
  - now rewrite str_eqb_neq.
  - destruct (str_eqb k0 k) eqn:E; cbn.
    + apply str_eqb_eq in E; subst k0. now rewrite !str_eqb_neq.
    + now rewrite IH.
Qed.

Lemma keys_set_present d k v :
  In k (Dict.keys d) -> Dict.keys (Dict.set d k v) = Dict.keys d.
Proof.
  induction d as [| [k' v'] d IH]; cbn; [contradiction |].
  intros [-> | I].
  - now rewrite str_eqb_refl.
  - destruct (str_eqb k' k); cbn; [reflexivity |].
    f_equal. now apply IH.
Qed.

Lemma keys_set_absent d k v :
  ~ In k (Dict.keys d) -> Dict.keys (Dict.set d k v) = Dict.keys d ++ [k].
Proof.
  induction d as [| [k' v'] d IH]; cbn; [reflexivity |].
  intros N. rewrite str_eqb_neq by tauto. cbn.
  f_equal. apply IH. tauto.
Qed.

Lemma In_keys_set d k v k' :
  In k' (Dict.keys (Dict.set d k v)) <-> k' = k \/ In k' (Dict.keys d).
Proof.
  destruct (in_dec str_eq_dec k (Dict.keys d)) as [I | N].
  - rewrite keys_set_present by assumption.
    split; [tauto | intros [-> | ?]; assumption].
  - rewrite keys_set_absent, in_app_iff by assumption. cbn.
    split; [intros [? | [-> | []]] | intros [-> | ?]]; tauto.
Qed.

Lemma NoDup_keys_set d k v :
  NoDup (Dict.keys d) -> NoDup (Dict.keys (Dict.set d k v)).
Proof.
  intros U. destruct (in_dec str_eq_dec k (Dict.keys d)) as [I | N].
  - now rewrite keys_set_present.
  - rewrite keys_set_absent by assumption.
    apply NoDup_app; [assumption | repeat constructor; intros [] |].
    intros x Ix [<- | []]. contradiction.
Qed.

Lemma update_cons d k v (kvs : list (str * V)) :
  Dict.update d ((k, v) :: kvs) = Dict.update (Dict.set d k v) kvs.
Proof. reflexivity. Qed.

Lemma NoDup_keys_update (kvs : list (str * V)) d :
  NoDup (Dict.keys d) -> NoDup (Dict.keys (Dict.update d kvs)).
Proof.
  revert d. induction kvs as [| [k v] kvs IH]; intros d U; [exact U |].
  rewrite update_cons. apply IH. now apply NoDup_keys_set.
Qed.

Lemma In_keys_update (kvs : list (str * V)) d k :
  In k (Dict.keys (Dict.update d kvs))
  <-> In k (Dict.keys d) \/ In k (map fst kvs).
Proof.
  revert d. induction kvs as [| [k' v'] kvs IH]; intros d; [cbn; tauto |].
  rewrite update_cons, IH, In_keys_set. cbn.
  split; [intros [[-> | ?] | ?] | intros [? | [-> | ?]]]; tauto.
Qed.

Lemma get_app (l r : Dict.t V) k :
  Dict.get (l ++ r) k
  = match Dict.get l k with Some v => Some v | None => Dict.get r k end.
Proof.
  induction l as [| [k' v'] l IH]; cbn; [reflexivity |].
  now destruct (str_eqb k' k).
Qed.

(** After a run of assignments a key holds the value of the last one that
    names it, and what it held before when none does. *)
Lemma get_update (kvs : list (str * V)) d k :
  Dict.get (Dict.update d kvs) k
  = match Dict.get (rev kvs) k with
    | Some v => Some v
    | None => Dict.get d k
    end.
Proof.
  revert d. induction kvs as [| [k' v'] kvs IH]; intros d; [reflexivity |].
  rewrite update_cons, IH. cbn [rev]. rewrite get_app. cbn [Dict.get].
  destruct (Dict.get (rev kvs) k); [reflexivity |].
  destruct (str_eq_dec k' k) as [-> | N].
  - now rewrite str_eqb_refl, get_set_same.
  - now rewrite (str_eqb_neq _ _ N), get_set_other.
Qed.

Lemma get_In d k v : Dict.get d k = Some v -> In (k, v) d.
Proof.
  induction d as [| [k' v'] d IH]; cbn; [discriminate |].
  destruct (str_eqb k' k) eqn:E.
  - apply str_eqb_eq in E; subst k'. intros [= ->]. now left.
  - intros G. right. now apply IH.
Qed.

Lemma In_get d k v :
  NoDup (Dict.keys d) -> In (k, v) d -> Dict.get d k = Some v.
Proof.
  induction d as [| [k' v'] d IH]; cbn; [contradiction |].
  intros U [[= -> ->] | I].
  - now rewrite str_eqb_refl.
  - inversion U as [| ? ? N U']; subst.
    rewrite str_eqb_neq; [now apply IH |].
    intros ->. apply N. now apply (in_map fst _ (k, v)).
Qed.

Lemma get_None d k : Dict.get d k = None <-> ~ In k (Dict.keys d).
Proof.
  induction d as [| [k' v'] d IH]; cbn; [tauto |].
  destruct (str_eq_dec k' k) as [-> | N].
  - rewrite str_eqb_refl. split; [discriminate | tauto].
  - rewrite (str_eqb_neq _ _ N), IH. tauto.
Qed.

End DictFacts.

Lemma count_occ_NoDup_In (l : list str) (x : str) :
  NoDup l -> In x l -> count_occ str_eq_dec l x = 1%nat.
Proof.
  intros U I.
  pose proof (proj1 (NoDup_count_occ str_eq_dec l) U x).
  pose proof (proj1 (count_occ_In str_eq_dec l x) I).
  lia.
Qed.


(* ------------------------------------------------------------------------- *)
(** ** The loader *)
(* ------------------------------------------------------------------------- *)

Lemma for_each_Forall2 {A B : Type} (f : A -> result B) (l : list A)
  (bs : list B) :
  for_each f l = Ok bs -> Forall2 (fun a b => f a = Ok b) l bs.
Proof.
  revert bs. induction l as [| a l IH]; cbn; intros bs.
  - intros [= <-]. constructor.
  - destruct (f a) as [b |] eqn:E; cbn; [| discriminate].
    destruct (for_each f l) as [bs' |]; cbn; [| discriminate].
    intros [= <-]. constructor; auto.
Qed.

Lemma Forall2_rev {A B : Type} (R : A -> B -> Prop) (l : list A)
  (l' : list B) :
  Forall2 R l l' -> Forall2 R (rev l) (rev l').
Proof.
  induction 1; cbn; [constructor |].
  apply Forall2_app; [assumption | repeat constructor; assumption].
Qed.

Section LoaderFacts.
Context {F : Type} `{PyFloat F}.
Variables (path : Path) (split : str).

Local Abbreviation built :=
  (fun (sample_data : SampleData F) (kv : SampleID * Sample F) =>
     H2ODataset.make_sample path split sample_data = Ok kv).

Lemma make_sample_inv (sample_data : SampleData F) (id : SampleID)
  (sample : Sample F) :
  H2ODataset.make_sample path split sample_data = Ok (id, sample) ->
  id = data_id sample_data
  /\ splits sample = [split]
  /\ image_path sample
     = (path / lit "images" / split / (id ++ lit ".jpg"))%path
  /\ actions sample
     = map H2ODataset.make_action (data_actions sample_data).
Proof.
  unfold H2ODataset.make_sample.
  destruct (for_each _ _); cbn; [| discriminate].
  intros [= <- <-]. repeat split.
Qed.

Lemma built_keys (data : list (SampleData F))
  (items : list (SampleID * Sample F)) :
  Forall2 built data items -> map fst items = map data_id data.
Proof.
  induction 1 as [| sample_data [id sample] data items B _ IH]; cbn;
    [reflexivity |].
  apply make_sample_inv in B as [-> _]. now rewrite IH.
Qed.

(** Looking an id up among the built pairs finds the sample built from the
    first record with that id. *)
Lemma built_get (data : list (SampleData F))
  (items : list (SampleID * Sample F)) (id : SampleID) :
  Forall2 built data items ->
  match find (fun sample_data => str_eqb (data_id sample_data) id) data with
  | Some sample_data =>
      exists sample,
        H2ODataset.make_sample path split sample_data = Ok (id, sample)
        /\ Dict.get items id = Some sample
  | None => Dict.get items id = None
  end.
Proof.
  induction 1 as [| sample_data [id' sample] data items B _ IH]; cbn;
    [reflexivity |].
  destruct (make_sample_inv _ _ _ B) as [-> _].
  destruct (str_eqb (data_id sample_data) id) eqn:E; [| exact IH].
  apply str_eqb_eq in E; subst id. eauto.
Qed.

End LoaderFacts.

Section InitFacts.
Context {F : Type} `{PyFloat F}.

(** What a successful [__init__] has done: both manifests were read and
    their samples assigned in turn to an empty dictionary. *)
Lemma init_samples (path : Path) (fs : Files F) (ds : H2ODataset.t F) :
  H2ODataset.__init__ path fs = Ok ds ->
  exists train_items test_items,
    H2ODataset._get_samples path fs (lit "train") = Ok train_items
    /\ H2ODataset._get_samples path fs (lit "test") = Ok test_items
    /\ H2ODataset._samples ds
       = Dict.update (Dict.update Dict.empty train_items) test_items.
Proof.
  unfold H2ODataset.__init__, H2ODataset.splits, H2ODataset.load_splits.
  destruct (H2ODataset._get_categories path fs); cbn [bind];
    [| discriminate].
  destruct (H2ODataset._get_verbs path fs); cbn [bind]; [| discriminate].
  destruct (H2ODataset._get_samples path fs (lit "train")) as [tr |];
    cbn [bind]; [| discriminate].
  destruct (H2ODataset._get_samples path fs (lit "test")) as [te |];
    cbn [bind]; [| discriminate].
  intros [= <-]. exists tr, te. repeat split.
Qed.

Lemma init_NoDup (path : Path) (fs : Files F) (ds : H2ODataset.t F) :
  H2ODataset.__init__ path fs = Ok ds ->
  NoDup (map fst (H2ODataset.__iter__ ds)).
Proof.
  intros I. destruct (init_samples _ _ _ I) as (tr & te & _ & _ & E).
  unfold H2ODataset.__iter__, Dict.items. rewrite E.
  apply (NoDup_keys_update te), (NoDup_keys_update tr). constructor.
Qed.

End InitFacts.

(** C9.  On a constructed dataset, the lookup of an id returns a sample
    exactly when the dataset holds that sample under that id; every id the
    dataset holds is found, and an id it does not hold raises the
    [KeyError] of the dictionary, carrying the id: no other outcome
    exists. *)
Theorem getitem_spec (F : Type) (A : PyFloat F) (path : Path) (fs : Files F)
  (ds : H2ODataset.t F) (id : SampleID) :
  H2ODataset.__init__ path fs = Ok ds ->
  (forall sample,
      In (id, sample) (H2ODataset.__iter__ ds)
      <-> H2ODataset.__getitem__ ds id = Ok sample)
  /\ (In id (map fst (H2ODataset.__iter__ ds)) ->
      exists sample, H2ODataset.__getitem__ ds id = Ok sample)
  /\ (~ In id (map fst (H2ODataset.__iter__ ds)) ->
      H2ODataset.__getitem__ ds id = Err (KeyError id))
  /\ (forall e, H2ODataset.__getitem__ ds id = Err e ->
      e = KeyError id /\ ~ In id (map fst (H2ODataset.__iter__ ds))).
Proof.
  intros I. pose proof (init_NoDup _ _ _ I) as U.
  unfold H2ODataset.__getitem__, H2ODataset.__iter__, Dict.items in *.
  unfold SampleID in *.
  destruct (Dict.get (H2ODataset._samples ds) id) as [s |] eqn:G.
  - pose proof (get_In _ _ _ G) as Is.
    repeat split.
    + intros I'. apply (In_get _ _ _ U) in I'. congruence.
    + intros [= <-]. exact Is.
    + eauto.
    + intros N. exfalso. apply N. now apply (in_map fst _ (id, s)).
    + discriminate.
    + discriminate.
  - pose proof (proj1 (get_None _ _) G) as N.
    repeat split.
    + intros I'. exfalso. apply N. now apply (in_map fst _ (id, sample)).
    + discriminate.
    + intros I'. contradiction.
    + congruence.
    + exact N.
Qed.

(** An instance of [getitem_spec], the example of the specification: the
    dataset of [Fixture.one_sample] has length 1 and the listed categories,
    ["0001"] gives a sample with one entity and one action, and ["0002"]
    raises [KeyError]. *)
Lemma getitem_spec_witness :
  exists ds,
    H2ODataset.__init__ Fixture.root Fixture.one_sample = Ok ds
    /\ H2ODataset.__len__ ds = 1%nat
    /\ H2ODataset.categories ds = [lit "person"; lit "ball"]
    /\ (exists sample,
          H2ODataset.__getitem__ ds (lit "0001") = Ok sample
          /\ List.length (entities sample) = 1%nat
          /\ List.length (actions sample) = 1%nat)
    /\ H2ODataset.__getitem__ ds (lit "0002") = Err (KeyError (lit "0002")).
Proof.
  eexists. split; [vm_compute; reflexivity |].
  split; [reflexivity |]. split; [reflexivity |]. split.
  - eexists. split.
    + apply (proj1 (getitem_spec float binary64 Fixture.root
                      Fixture.one_sample _ (lit "0001") eq_refl)).
      left; reflexivity.
    + split; reflexivity.
  - apply (proj1 (proj2 (proj2
             (getitem_spec float binary64 Fixture.root Fixture.one_sample
                _ (lit "0002") eq_refl)))).
    intros [E | []]. discriminate E.
Defined.


(* ========================================================================= *)
(** * Further properties of the bounding box *)
(* ========================================================================= *)

Lemma mkBox_eq {F : Type} (c0 c1 c2 c3 d0 d1 d2 d3 : F)
  (fmt : BoundingBoxFormat) (n : bool) :
  c0 = d0 -> c1 = d1 -> c2 = d2 -> c3 = d3 ->
  mkBox (c0, c1, c2, c3) fmt n = mkBox (d0, d1, d2, d3) fmt n.
Proof. now intros -> -> -> ->. Qed.

(** X1.  Converting to a format [f] and then to a format [g] ends in the
    format [g] with the flag of the box one started from, in any
    arithmetic; with exact arithmetic it gives the box of the direct
    conversion to [g]: the three formats describe one rectangle. *)
Theorem convert_compose :
  (forall (F : Type) (A : PyFloat F) (b : BoundingBox F)
          (f g : BoundingBoxFormat),
      format (Box.convert (Box.convert b f) g) = g
      /\ normalized (Box.convert (Box.convert b f) g) = normalized b)
  /\ (forall (b : BoundingBox Qc) (f g : BoundingBoxFormat),
      Box.convert (Box.convert b f) g = Box.convert b g).
Proof.
  split.
  - intros F A b f g. now rewrite format_convert, !normalized_convert.
  - intros [[[[c0 c1] c2] c3] [] n] [] []; try reflexivity;
      cbn; unfold half; cbn; rewrite ?Qc_two;
      apply mkBox_eq; field; discriminate.
Qed.

Section NormalizationOutcomes.
Context {F : Type} `{PyFloat F}.

Lemma normalize_result_normalized (b b' : BoundingBox F) (size : Z * Z) :
  Box.normalize b size = Ok b' -> normalized b' = true.
Proof.
  destruct b as [[[[c0 c1] c2] c3] fmt n], size as [w h].
  unfold Box.normalize; cbn [normalized coordinates format].
  destruct n; [now intros [= <-] |].
  destruct (truediv c0 w); cbn [bind]; [| discriminate].
  destruct (truediv c1 h); cbn [bind]; [| discriminate].
  destruct (truediv c2 w); cbn [bind]; [| discriminate].
  destruct (truediv c3 h); cbn [bind]; [| discriminate].
  now intros [= <-].
Qed.

Lemma denormalize_result_denormalized (b b' : BoundingBox F)
  (size : Z * Z) :
  Box.denormalize b size = Ok b' -> normalized b' = false.
Proof.
  destruct b as [[[[c0 c1] c2] c3] fmt n], size as [w h].
  unfold Box.denormalize; cbn [normalized coordinates format].
  destruct n; cbn [negb]; [| now intros [= <-]].
  destruct (times c0 w); cbn [bind]; [| discriminate].
  destruct (times c1 h); cbn [bind]; [| discriminate].
  destruct (times c2 w); cbn [bind]; [| discriminate].
  destruct (times c3 h); cbn [bind]; [| discriminate].
  now intros [= <-].
Qed.

Lemma denormalize_denormalized (b : BoundingBox F) (size : Z * Z) :
  normalized b = false -> Box.denormalize b size = Ok b.
Proof. intros E. unfold Box.denormalize. now rewrite E. Qed.

End NormalizationOutcomes.

Lemma number_times_int (k n : Z) : times (Int k) n = Ok (Int (k * n)).
Proof. reflexivity. Qed.

Lemma number_times_float (f : float) (n : Z) :
  times (Float f) n
  = match float_of_int n with
    | Some d => Ok (Float (f * d))
    | None => Err OverflowError
    end.
Proof.
  cbn [times python_number]. unfold float_times. cbn [of_int binary64 fmul].
  now destruct (float_of_int n).
Qed.

Lemma number_times_Err (c : number) (n : Z) (e : exn) :
  times c n = Err e ->
  e = OverflowError /\ float_of_int n = None /\ exists f, c = Float f.
Proof.
  destruct c as [k | f]; [discriminate |].
  rewrite number_times_float. destruct (float_of_int n); [discriminate |].
  intros [= <-]. eauto.
Qed.

(** X2.  [denormalize], on coordinates that are ints or floats, returns a
    box that is not normalized as it is, whatever the size.  On a normalized
    box it multiplies by the width and the height, a zero dimension
    included: ints give their exact products and never raise; floats give
    their products when both dimensions convert to a float.  When it fails,
    the box was normalized, the exception is [OverflowError], a dimension
    does not convert to a float and a coordinate is a float: it never raises
    [ZeroDivisionError]. *)
Theorem denormalize_outcomes (c0 c1 c2 c3 : number)
  (fmt : BoundingBoxFormat) (w h : Z) :
  Box.denormalize (mkBox (c0, c1, c2, c3) fmt false) (w, h)
  = Ok (mkBox (c0, c1, c2, c3) fmt false)
  /\ (forall k0 k1 k2 k3 : Z,
      (c0, c1, c2, c3) = (Int k0, Int k1, Int k2, Int k3) ->
      Box.denormalize (mkBox (c0, c1, c2, c3) fmt true) (w, h)
      = Ok (mkBox (Int (k0 * w), Int (k1 * h), Int (k2 * w), Int (k3 * h))
                  fmt false))
  /\ (forall f0 f1 f2 f3 fw fh : float,
      (c0, c1, c2, c3) = (Float f0, Float f1, Float f2, Float f3) ->
      float_of_int w = Some fw -> float_of_int h = Some fh ->
      Box.denormalize (mkBox (c0, c1, c2, c3) fmt true) (w, h)
      = Ok (mkBox (Float (f0 * fw), Float (f1 * fh),
                   Float (f2 * fw), Float (f3 * fh)) fmt false))
  /\ (forall (n : bool) (e : exn),
      Box.denormalize (mkBox (c0, c1, c2, c3) fmt n) (w, h) = Err e ->
      n = true /\ e = OverflowError
      /\ (float_of_int w = None \/ float_of_int h = None)
      /\ exists f, In (Float f) [c0; c1; c2; c3]).
Proof.
  split; [reflexivity |]. split; [| split].
  - intros k0 k1 k2 k3 [= -> -> -> ->]. reflexivity.
  - intros f0 f1 f2 f3 fw fh [= -> -> -> ->] Ew Eh.
    unfold Box.denormalize; cbn [normalized coordinates format negb].
    rewrite !number_times_float, Ew, Eh. reflexivity.
  - intros n e. unfold Box.denormalize; cbn [normalized coordinates format].
    destruct n; cbn [negb]; [| discriminate].
    destruct (times c0 w) as [q0 |] eqn:T0; cbn [bind].
    2: { intros [= <-]. apply number_times_Err in T0 as (-> & E & f & ->).
         repeat split; auto. exists f. now left. }
    destruct (times c1 h) as [q1 |] eqn:T1; cbn [bind].
    2: { intros [= <-]. apply number_times_Err in T1 as (-> & E & f & ->).
         repeat split; auto. exists f. right; now left. }
    destruct (times c2 w) as [q2 |] eqn:T2; cbn [bind].
    2: { intros [= <-]. apply number_times_Err in T2 as (-> & E & f & ->).
         repeat split; auto. exists f. right; right; now left. }
    destruct (times c3 h) as [q3 |] eqn:T3; cbn [bind]; [discriminate |].
    intros [= <-]. apply number_times_Err in T3 as (-> & E & f & ->).
    repeat split; auto. exists f. right; right; right; now left.
Qed.

(** Instances of [denormalize_outcomes] at a width beyond the floats: the
    normalized box of ints (0, 0, 1, 1) is multiplied exactly, and the
    normalized box of floats (0.5, 0.5, 1, 1) raises [OverflowError]; the
    same box of floats at the size (0, 0) gives zeros. *)
Lemma denormalize_outcomes_witness :
  Box.denormalize (mkBox (Int 0, Int 0, Int 1, Int 1) XYXY true)
    (10 ^ 400, 480)%Z
  = Ok (mkBox (Int (0 * 10 ^ 400), Int (0 * 480), Int (1 * 10 ^ 400),
               Int (1 * 480)) XYXY false)
  /\ Box.denormalize
       (mkBox (Float 0.5, Float 0.5, Float 1, Float 1) XYXY true) (0, 0)%Z
     = Ok (mkBox (Float (0.5 * 0), Float (0.5 * 0), Float (1 * 0),
                  Float (1 * 0)) XYXY false)
  /\ Box.denormalize
       (mkBox (Float 0.5, Float 0.5, Float 1, Float 1) XYXY true)
       (10 ^ 400, 480)%Z
     = Err OverflowError.
Proof.
  split; [| split].
  - apply (proj1 (proj2 (denormalize_outcomes (Int 0) (Int 0) (Int 1) (Int 1)
                           XYXY (10 ^ 400) 480)) 0%Z 0%Z 1%Z 1%Z eq_refl).
  - apply (proj1 (proj2 (proj2 (denormalize_outcomes (Float 0.5) (Float 0.5)
                                  (Float 1) (Float 1) XYXY 0 0)))
             0.5 0.5 1 1 0 0 eq_refl eq_refl eq_refl).
  - destruct (Box.denormalize
                (mkBox (Float 0.5, Float 0.5, Float 1, Float 1) XYXY true)
                (10 ^ 400, 480)%Z) as [b' | e] eqn:D.
    + vm_compute in D. discriminate D.
    + destruct (proj2 (proj2 (proj2 (denormalize_outcomes (Float 0.5)
                  (Float 0.5) (Float 1) (Float 1) XYXY (10 ^ 400) 480)))
                  true e D) as (_ & -> & _).
      reflexivity.
Defined.

(** X3.  Once [normalize] has returned a box, normalizing that box again
    returns it unchanged for every size, a zero one included; and likewise
    for [denormalize]. *)
Theorem normalize_idempotent (F : Type) (A : PyFloat F)
  (b b' : BoundingBox F) (size : Z * Z) :
  (Box.normalize b size = Ok b' ->
   forall size' : Z * Z, Box.normalize b' size' = Ok b')
  /\ (Box.denormalize b size = Ok b' ->
      forall size' : Z * Z, Box.denormalize b' size' = Ok b').
Proof.
  split; intros E size'.
  - apply normalize_normalized. eapply normalize_result_normalized, E.
  - apply denormalize_denormalized.
    eapply denormalize_result_denormalized, E.
Qed.

(** An instance of [normalize_idempotent]: the box (10, 15, 40, 60) of a
    640 by 480 image, normalized and then normalized again with the size
    (0, 0). *)
Lemma normalize_idempotent_witness :
  Box.normalize (mkBox (0.015625, 0.03125, 0.0625, 0.125) XYXY true) (0, 0)%Z
  = Ok (mkBox (0.015625, 0.03125, 0.0625, 0.125) XYXY true).
Proof.
  apply (proj1 (normalize_idempotent float binary64
                  (mkBox (10, 15, 40, 60) XYXY false)
                  (mkBox (0.015625, 0.03125, 0.0625, 0.125) XYXY true)
                  (640, 480)%Z)).
  vm_compute. reflexivity.
Defined.

(** X4.  On coordinates that are ints or floats, [normalize] fails only on
    a box that is not normalized, and only with [ZeroDivisionError] or
    [OverflowError].  When it returns, it returns the receiver itself if
    that was normalized; otherwise both dimensions are not zero and the box
    returned is normalized, in the same format, and its four coordinates are
    floats.  A box of floats that is not normalized is returned a box exactly
    when both dimensions are not zero and convert to a float. *)
Theorem normalize_outcomes (c0 c1 c2 c3 : number) (fmt : BoundingBoxFormat)
  (n : bool) (w h : Z) :
  (forall e,
      Box.normalize (mkBox (c0, c1, c2, c3) fmt n) (w, h) = Err e ->
      n = false /\ (e = ZeroDivisionError \/ e = OverflowError))
  /\ (forall b',
      Box.normalize (mkBox (c0, c1, c2, c3) fmt n) (w, h) = Ok b' ->
      (n = true /\ b' = mkBox (c0, c1, c2, c3) fmt n)
      \/ (n = false /\ w <> 0%Z /\ h <> 0%Z
          /\ exists q0 q1 q2 q3 : float,
               b' = mkBox (Float q0, Float q1, Float q2, Float q3) fmt true))
  /\ (forall f0 f1 f2 f3 : float,
      (c0, c1, c2, c3) = (Float f0, Float f1, Float f2, Float f3) ->
      n = false ->
      ((exists b', Box.normalize (mkBox (c0, c1, c2, c3) fmt n) (w, h)
                   = Ok b')
       <-> w <> 0%Z /\ h <> 0%Z
           /\ float_of_int w <> None /\ float_of_int h <> None)).
Proof.
  assert (D : forall c m,
             (m = 0%Z /\ truediv c m = Err ZeroDivisionError)
             \/ (m <> 0%Z /\ exists q, truediv c m = Ok (Float q))
             \/ (m <> 0%Z /\ truediv c m = Err OverflowError)).
  { intros c m. destruct (Z.eq_dec m 0) as [-> | N].
    - left. split; [reflexivity | apply number_truediv_zero].
    - right. destruct (number_truediv_nonzero c m N); auto. }
  split; [| split].
  - intros e. unfold Box.normalize; cbn [normalized coordinates format].
    destruct n; [discriminate |].
    destruct (D c0 w) as [[_ ->] | [(_ & q0 & ->) | [_ ->]]]; cbn [bind];
      try (intros [= <-]; auto).
    destruct (D c1 h) as [[_ ->] | [(_ & q1 & ->) | [_ ->]]]; cbn [bind];
      try (intros [= <-]; auto).
    destruct (D c2 w) as [[_ ->] | [(_ & q2 & ->) | [_ ->]]]; cbn [bind];
      try (intros [= <-]; auto).
    destruct (D c3 h) as [[_ ->] | [(_ & q3 & ->) | [_ ->]]]; cbn [bind];
      intros [= <-]; auto.
  - intros b'. unfold Box.normalize; cbn [normalized coordinates format].
    destruct n; [intros [= <-]; now left |].
    destruct (D c0 w) as [[_ ->] | [(Nw & q0 & ->) | [_ ->]]]; cbn [bind];
      try discriminate.
    destruct (D c1 h) as [[_ ->] | [(Nh & q1 & ->) | [_ ->]]]; cbn [bind];
      try discriminate.
    destruct (D c2 w) as [[_ ->] | [(_ & q2 & ->) | [_ ->]]]; cbn [bind];
      try discriminate.
    destruct (D c3 h) as [[_ ->] | [(_ & q3 & ->) | [_ ->]]]; cbn [bind];
      try discriminate.
    intros [= <-]. right. repeat split; try assumption.
    now exists q0, q1, q2, q3.
  - intros f0 f1 f2 f3 [= -> -> -> ->] ->.
    unfold Box.normalize; cbn [normalized coordinates format].
    destruct (Z.eq_dec w 0) as [-> | Nw].
    { rewrite number_truediv_zero; cbn [bind].
      split; [intros [? [=]] | intros (C & _); now contradiction C]. }
    destruct (Z.eq_dec h 0) as [-> | Nh].
    { rewrite (number_truediv_float f0 w Nw), number_truediv_zero.
      destruct (float_of_int w); cbn [bind];
        (split; [intros [? [=]] | intros (_ & C & _); now contradiction C]). }
    rewrite !(fun f => number_truediv_float f w Nw),
      !(fun f => number_truediv_float f h Nh).
    destruct (float_of_int w) as [fw |]; cbn [bind].
    2: { split; [intros [? [=]]
                | intros (_ & _ & C & _); now contradiction C]. }
    destruct (float_of_int h) as [fh |]; cbn [bind].
    2: { split; [intros [? [=]]
                | intros (_ & _ & _ & C); now contradiction C]. }
    split; [intros _; repeat split; (assumption || discriminate) | eauto].
Qed.

Lemma truediv_exact (c : Qc) (n : Z) :
  truediv c n
  = if (n =? 0)%Z then Err ZeroDivisionError
    else Ok (c / Q2Qc (inject_Z n))%Qc.
Proof. reflexivity. Qed.

Lemma times_exact (c : Qc) (n : Z) :
  times c n = Ok (c * Q2Qc (inject_Z n))%Qc.
Proof. reflexivity. Qed.

(** X5.  With exact arithmetic, normalization and format conversion
    commute: converting the box that [normalize] (or [denormalize]) returns
    gives what [normalize] (or [denormalize]) returns on the converted box,
    the same exception included. *)
Theorem normalization_commutes_with_convert (b : BoundingBox Qc)
  (f : BoundingBoxFormat) (size : Z * Z) :
  (b' <- Box.normalize b size ;; Ok (Box.convert b' f))%py
  = Box.normalize (Box.convert b f) size
  /\ (b' <- Box.denormalize b size ;; Ok (Box.convert b' f))%py
     = Box.denormalize (Box.convert b f) size.
Proof.
  destruct b as [[[[c0 c1] c2] c3] fmt n], size as [w h]. split.
  - destruct n; [now destruct fmt, f |].
    destruct fmt, f; unfold Box.normalize; cbn -[truediv];
      rewrite !truediv_exact;
      destruct (Z.eqb_spec w 0) as [| Nw]; cbn [bind]; try reflexivity;
      destruct (Z.eqb_spec h 0) as [| Nh]; cbn [bind]; try reflexivity;
      pose proof (Q2Qc_inject_Z_nonzero w Nw);
      pose proof (Q2Qc_inject_Z_nonzero h Nh);
      f_equal; unfold half; cbn; rewrite ?Qc_two;
      apply mkBox_eq; field; try assumption;
      repeat split; try assumption; discriminate.
  - destruct n; [| now destruct fmt, f].
    destruct fmt, f; unfold Box.denormalize; cbn -[times];
      rewrite !times_exact; cbn [bind]; try reflexivity;
      f_equal; unfold half; cbn; rewrite ?Qc_two;
      apply mkBox_eq; field; discriminate.
Qed.

(** X6.  With exact arithmetic [normalize] undoes [denormalize]: for a
    normalized box and a size without a zero dimension, denormalizing and
    normalizing again gives the box back. *)
Theorem denormalize_normalize_exact (b : BoundingBox Qc) (w h : Z) :
  normalized b = true -> w <> 0%Z -> h <> 0%Z ->
  (d <- Box.denormalize b (w, h) ;; Box.normalize d (w, h))%py = Ok b.
Proof.
  destruct b as [[[[c0 c1] c2] c3] fmt n]; cbn [normalized].
  intros -> Nw Nh.
  rewrite (@denormalize_ok Qc exact c0 c1 c2 c3 (Q2Qc (inject_Z w))
             (Q2Qc (inject_Z h)) fmt w h eq_refl eq_refl).
  cbn [bind].
  rewrite (@normalize_ok Qc exact _ _ _ _ (Q2Qc (inject_Z w))
             (Q2Qc (inject_Z h)) fmt w h eq_refl eq_refl Nw Nh).
  pose proof (Q2Qc_inject_Z_nonzero w Nw).
  pose proof (Q2Qc_inject_Z_nonzero h Nh).
  cbn. f_equal. apply mkBox_eq; field; assumption.
Qed.

(** An instance of [denormalize_normalize_exact]: the box
    (1/3, 1/3, 2/3, 2/3) of a 1920 by 1080 image. *)
Lemma denormalize_normalize_exact_witness :
  let b := mkBox (Q2Qc (1 # 3), Q2Qc (1 # 3), Q2Qc (2 # 3), Q2Qc (2 # 3))
                 XYXY true in
  (d <- Box.denormalize b (1920, 1080)%Z ;;
   Box.normalize d (1920, 1080)%Z)%py = Ok b.
Proof.
  apply (denormalize_normalize_exact
           (mkBox (Q2Qc (1 # 3), Q2Qc (1 # 3), Q2Qc (2 # 3), Q2Qc (2 # 3))
                  XYXY true) 1920 1080);
    [reflexivity | discriminate | discriminate].
Defined.

(* ========================================================================= *)
(** * Further properties of the format *)
(* ========================================================================= *)

(** X7.  The string form of a format parses back to it, as does its member
    name, whatever the Unicode table; so the three formats have distinct
    string forms. *)
Theorem from_str_of_str (unicode_upper : N -> list N) :
  (forall f : BoundingBoxFormat,
      Format.from_str unicode_upper (Format.__str__ f) = Ok f
      /\ Format.from_str unicode_upper (Format.name f) = Ok f)
  /\ (forall f g : BoundingBoxFormat,
      Format.__str__ f = Format.__str__ g -> f = g).
Proof.
  split.
  - intros []; split; vm_compute; reflexivity.
  - intros f g E.
    assert (R : forall k, Format.from_str unicode_upper (Format.__str__ k)
                          = Ok k) by (intros []; vm_compute; reflexivity).
    pose proof (R f) as Rf. rewrite E, R in Rf. now injection Rf.
Qed.

(* ========================================================================= *)
(** * Further properties of the loader *)
(* ========================================================================= *)

Section RecordFacts.
Context {F : Type} `{PyFloat F}.

Lemma make_entity_inv (entity_data : EntityData F) (entity : Entity F) :
  H2ODataset.make_entity entity_data = Ok entity ->
  (let '(c0, c1, c2, c3) := coordinates (bbox entity) in
   data_bbox entity_data = [c0; c1; c2; c3])
  /\ format (bbox entity) = XYXY
  /\ normalized (bbox entity) = true
  /\ category entity = data_category entity_data.
Proof.
  unfold H2ODataset.make_entity.
  destruct (data_bbox entity_data) as [|c0 [|c1 [|c2 [|c3 [|c4 cs]]]]];
    cbn; try discriminate.
  intros [= <-]. repeat split.
Qed.

Lemma make_sample_entities (path : Path) (split : str)
  (sample_data : SampleData F) (kv : SampleID * Sample F) :
  H2ODataset.make_sample path split sample_data = Ok kv ->
  Forall2 (fun entity_data entity =>
             H2ODataset.make_entity entity_data = Ok entity)
          (data_entities sample_data) (entities (snd kv)).
Proof.
  unfold H2ODataset.make_sample.
  destruct (for_each _ _) as [es |] eqn:E; cbn; [| discriminate].
  intros [= <-]. now apply for_each_Forall2.
Qed.

Lemma make_sample_well_formed (path : Path) (split : str)
  (sample_data : SampleData F) (kv : SampleID * Sample F) :
  H2ODataset.make_sample path split sample_data = Ok kv ->
  Forall (fun entity_data => List.length (data_bbox entity_data) = 4%nat)
         (data_entities sample_data).
Proof.
  intros E. apply make_sample_entities in E.
  induction E as [| entity_data entity ds es M _ IH]; constructor;
    [| exact IH].
  apply make_entity_inv in M as [M _].
  destruct (coordinates (bbox entity)) as [[[c0 c1] c2] c3].
  now rewrite M.
Qed.

Lemma get_samples_inv (path : Path) (fs : Files F) (split : str)
  (items : list (SampleID * Sample F)) :
  H2ODataset._get_samples path fs split = Ok items ->
  exists data,
    split_json fs split = Some data
    /\ well_formed data
    /\ Forall2 (fun sample_data kv =>
                  H2ODataset.make_sample path split sample_data = Ok kv)
               data items.
Proof.
  unfold H2ODataset._get_samples.
  destruct (split_json fs split) as [data |]; [| discriminate].
  intros E. apply for_each_Forall2 in E.
  exists data. split; [reflexivity |]. split; [| exact E].
  clear -E. induction E as [| sample_data kv data items M _ IH];
    constructor; [| exact IH].
  eapply make_sample_well_formed, M.
Qed.


End RecordFacts.

(** X8.  A load that succeeds has found the four files, and every box of
    the two manifests has four coordinates; the dataset carries the path it
    was given and the categories and verbs as read from their files. *)
Theorem init_success_requires (F : Type) (path : Path) (fs : Files F)
  (ds : H2ODataset.t F) :
  H2ODataset.__init__ path fs = Ok ds ->
  exists train test,
    categories_json fs = Some (H2ODataset.categories ds)
    /\ verbs_json fs = Some (H2ODataset.verbs ds)
    /\ split_json fs (lit "train") = Some train
    /\ split_json fs (lit "test") = Some test
    /\ well_formed train /\ well_formed test
    /\ H2ODataset._path ds = path.
Proof.
  intros I.
  destruct (init_samples path fs ds I) as (tr & te & Etr & Ete & _).
  apply get_samples_inv in Etr as (train & Htr & Wtr & _).
  apply get_samples_inv in Ete as (test & Hte & Wte & _).
  exists train, test.
  revert I. unfold H2ODataset.__init__, H2ODataset._get_categories,
    H2ODataset._get_verbs.
  destruct (categories_json fs) as [cats |]; [| discriminate].
  destruct (verbs_json fs) as [vbs |]; [| discriminate].
  cbn [bind]. destruct (H2ODataset.load_splits _ _ _ _); cbn [bind];
    [| discriminate].
  intros [= <-]. repeat split; assumption.
Qed.

(** An instance of [init_success_requires]: the folder of the
    specification's example. *)
Lemma init_success_requires_witness :
  exists ds train test,
    H2ODataset.__init__ Fixture.root Fixture.one_sample = Ok ds
    /\ categories_json Fixture.one_sample = Some (H2ODataset.categories ds)
    /\ verbs_json Fixture.one_sample = Some (H2ODataset.verbs ds)
    /\ split_json Fixture.one_sample (lit "train") = Some train
    /\ split_json Fixture.one_sample (lit "test") = Some test
    /\ well_formed train /\ well_formed test
    /\ H2ODataset._path ds = Fixture.root.
Proof.
  eexists.
  destruct (init_success_requires float Fixture.root
              Fixture.one_sample _ eq_refl) as (train & test & P).
  exists train, test. split; [reflexivity | exact P].
Defined.



Section DictOrder.
Context {V : Type}.
Implicit Types (d : Dict.t V) (k : str) (v : V).

Lemma set_absent d k v :
  ~ In k (Dict.keys d) -> Dict.set d k v = d ++ [(k, v)].
Proof.
  induction d as [| [k' v'] d IH]; cbn; [reflexivity |].
  intros N. rewrite str_eqb_neq by tauto. f_equal. apply IH. tauto.
Qed.

Lemma update_app d (l1 l2 : list (str * V)) :
  Dict.update d (l1 ++ l2) = Dict.update (Dict.update d l1) l2.
Proof. apply fold_left_app. Qed.

(** Pairs with keys that are new and distinct are appended as they come. *)
Lemma update_fresh (kvs : list (str * V)) d :
  NoDup (Dict.keys d ++ map fst kvs) -> Dict.update d kvs = d ++ kvs.
Proof.
  revert d. induction kvs as [| [k v] kvs IH]; intros d U.
  - cbn. now rewrite app_nil_r.
  - rewrite update_cons. cbn [map fst] in U.
    pose proof (NoDup_remove_2 _ _ _ U) as N.
    rewrite set_absent by (intros I; apply N, in_or_app; now left).
    rewrite IH.
    + now rewrite <- app_assoc.
    + unfold Dict.keys in *. rewrite map_app, <- app_assoc. exact U.
Qed.

(** The keys of a dictionary filled from empty: each key once, in the order
    of its first assignment. *)
Lemma keys_update_empty (kvs : list (str * V)) :
  Dict.keys (Dict.update Dict.empty kvs)
  = rev (nodup str_eq_dec (rev (map fst kvs))).
Proof.
  induction kvs as [| [k v] kvs IH] using rev_ind; [reflexivity |].
  rewrite update_app, update_cons, map_app, rev_app_distr.
  cbn [map fst rev app Dict.update fold_left nodup].
  destruct (in_dec str_eq_dec k (rev (map fst kvs))) as [I | N].
  - rewrite <- IH. apply keys_set_present.
    apply In_keys_update. right. now apply in_rev.
  - cbn [rev]. rewrite <- IH. apply keys_set_absent.
    intros I. apply N. apply In_keys_update in I as [[] | I].
    now apply in_rev in I.
Qed.

Lemma In_set d k v (kv : str * V) :
  In kv (Dict.set d k v) -> In kv d \/ kv = (k, v).
Proof.
  induction d as [| [k' v'] d IH]; cbn.
  - intros [<- | []]. now right.
  - destruct (str_eqb k' k) eqn:E; cbn.
    + apply str_eqb_eq in E; subst k'. intros [<- | I]; auto.
    + intros [<- | I]; [auto |]. destruct (IH I); auto.
Qed.

Lemma In_update (kvs : list (str * V)) d (kv : str * V) :
  In kv (Dict.update d kvs) -> In kv d \/ In kv kvs.
Proof.
  revert d. induction kvs as [| [k v] kvs IH]; intros d; [now left |].
  rewrite update_cons. intros I. apply IH in I as [I | I].
  - apply In_set in I as [I | ->]; [now left | right; now left].
  - right; now right.
Qed.

End DictOrder.

Lemma length_nodup_rev (l : list str) :
  List.length (nodup str_eq_dec (rev l)) = List.length (nodup str_eq_dec l).
Proof.
  apply Permutation_length, NoDup_Permutation; try apply NoDup_nodup.
  intros x. now rewrite !nodup_In, <- in_rev.
Qed.

Lemma Forall2_In_r {A B : Type} (R : A -> B -> Prop) (l : list A)
  (l' : list B) (b : B) :
  Forall2 R l l' -> In b l' -> exists a, In a l /\ R a b.
Proof.
  induction 1 as [| a b' l l' Rab _ IH]; [contradiction |].
  intros [<- | I].
  - exists a. split; [now left | exact Rab].
  - destruct (IH I) as (a' & I' & R'). exists a'. split; [now right | exact R'].
Qed.

Section Contents.
Context {F : Type} `{PyFloat F}.
Variables (path : Path) (fs : Files F) (ds : H2ODataset.t F).
Variables (train test : list (SampleData F)).
Hypothesis loaded : H2ODataset.__init__ path fs = Ok ds.
Hypothesis train_read : split_json fs (lit "train") = Some train.
Hypothesis test_read : split_json fs (lit "test") = Some test.

(** The pairs the dataset was filled with. *)
Lemma init_items :
  exists tr te,
    Forall2 (fun sample_data kv =>
               H2ODataset.make_sample path (lit "train") sample_data = Ok kv)
            train tr
    /\ Forall2 (fun sample_data kv =>
                  H2ODataset.make_sample path (lit "test") sample_data
                  = Ok kv)
               test te
    /\ H2ODataset._samples ds = Dict.update (Dict.update Dict.empty tr) te.
Proof.
  destruct (init_samples path fs ds loaded) as (tr & te & Etr & Ete & E).
  apply get_samples_inv in Etr as (train' & Htr & _ & Btr).
  apply get_samples_inv in Ete as (test' & Hte & _ & Bte).
  rewrite train_read in Htr. rewrite test_read in Hte.
  injection Htr as <-. injection Hte as <-.
  exists tr, te. repeat split; assumption.
Qed.

End Contents.

(** X10.  When the ids of train.json and test.json are all distinct, the
    dataset iterates over the samples of train.json in file order and then
    those of test.json in file order, and its length is the number of
    records of the two manifests. *)
Theorem iter_distinct_ids (F : Type) (A : PyFloat F) (path : Path)
  (fs : Files F) (ds : H2ODataset.t F) (train test : list (SampleData F)) :
  H2ODataset.__init__ path fs = Ok ds ->
  split_json fs (lit "train") = Some train ->
  split_json fs (lit "test") = Some test ->
  NoDup (map data_id train ++ map data_id test) ->
  (exists tr te,
      Forall2 (fun sample_data kv =>
                 H2ODataset.make_sample path (lit "train") sample_data
                 = Ok kv) train tr
      /\ Forall2 (fun sample_data kv =>
                    H2ODataset.make_sample path (lit "test") sample_data
                    = Ok kv) test te
      /\ H2ODataset.__iter__ ds = tr ++ te)
  /\ map fst (H2ODataset.__iter__ ds) = map data_id train ++ map data_id test
  /\ H2ODataset.__len__ ds = (List.length train + List.length test)%nat.
Proof.
  intros I Htr Hte U.
  destruct (init_items path fs ds train test I Htr Hte)
    as (tr & te & Btr & Bte & E).
  pose proof (built_keys path (lit "train") train tr Btr) as Ktr.
  pose proof (built_keys path (lit "test") test te Bte) as Kte.
  unfold SampleID in *.
  assert (It : H2ODataset.__iter__ ds = tr ++ te).
  { unfold H2ODataset.__iter__, Dict.items. rewrite E.
    rewrite (update_fresh tr Dict.empty), update_fresh.
    - reflexivity.
    - unfold Dict.keys, Dict.empty; cbn [app]. now rewrite Ktr, Kte.
    - unfold Dict.keys, Dict.empty; cbn [map app]. rewrite Ktr.
      eapply NoDup_app_remove_r, U. }
  split; [exists tr, te; repeat split; assumption |].
  split.
  - now rewrite It, map_app, Ktr, Kte.
  - unfold H2ODataset.__len__, Dict.len.
    change (H2ODataset._samples ds) with (H2ODataset.__iter__ ds).
    rewrite It, length_app.
    now rewrite (Forall2_length Btr), (Forall2_length Bte).
Qed.

(** An instance of [iter_distinct_ids]: the folder with ["0001"] in
    train.json and ["0002"] in test.json. *)
Lemma iter_distinct_ids_witness :
  exists ds,
    H2ODataset.__init__ Fixture.root BrokenFixture.two_samples = Ok ds
    /\ map fst (H2ODataset.__iter__ ds) = [lit "0001"; lit "0002"]
    /\ H2ODataset.__len__ ds = 2%nat.
Proof.
  eexists. split; [vm_compute; reflexivity |].
  apply (iter_distinct_ids float binary64 Fixture.root
           BrokenFixture.two_samples _ Fixture.train_json
           [ mkSampleData (lit "0002")
               [ mkEntityData [0.5; 0.5; 1; 1]%float (lit "ball") ] [] ]
           eq_refl eq_refl eq_refl).
  repeat constructor; cbn; intuition discriminate.
Defined.

(** X11.  Whatever the ids, the dataset iterates over each id of the two
    manifests once, in the order of its first appearance in train.json
    followed by test.json, and its length is the number of distinct ids. *)
Theorem iter_first_appearance (F : Type) (A : PyFloat F) (path : Path)
  (fs : Files F) (ds : H2ODataset.t F) (train test : list (SampleData F)) :
  H2ODataset.__init__ path fs = Ok ds ->
  split_json fs (lit "train") = Some train ->
  split_json fs (lit "test") = Some test ->
  map fst (H2ODataset.__iter__ ds)
  = rev (nodup str_eq_dec (rev (map data_id train ++ map data_id test)))
  /\ H2ODataset.__len__ ds
     = List.length (nodup str_eq_dec (map data_id train ++ map data_id test))
  /\ (forall id,
      In id (map fst (H2ODataset.__iter__ ds))
      <-> In id (map data_id train) \/ In id (map data_id test)).
Proof.
  intros I Htr Hte.
  destruct (init_items path fs ds train test I Htr Hte)
    as (tr & te & Btr & Bte & E).
  pose proof (built_keys path (lit "train") train tr Btr) as Ktr.
  pose proof (built_keys path (lit "test") test te Bte) as Kte.
  unfold SampleID in *.
  assert (K : map fst (H2ODataset.__iter__ ds)
              = rev (nodup str_eq_dec
                       (rev (map data_id train ++ map data_id test)))).
  { unfold H2ODataset.__iter__, Dict.items. rewrite E, <- update_app.
    change (map fst (Dict.update Dict.empty (tr ++ te)))
      with (Dict.keys (Dict.update Dict.empty (tr ++ te))).
    now rewrite keys_update_empty, map_app, Ktr, Kte. }
  unfold SampleID in *.
  split; [exact K |]. split.
  - unfold H2ODataset.__len__, Dict.len.
    change (H2ODataset._samples ds) with (H2ODataset.__iter__ ds).
    rewrite <- (length_map fst), K, length_rev. apply length_nodup_rev.
  - intros id. rewrite K, <- in_rev, nodup_In, <- in_rev. apply in_app_iff.
Qed.

(** An instance of [iter_first_appearance]: ["0001"] in both manifests. *)
Lemma iter_first_appearance_witness :
  exists ds,
    H2ODataset.__init__ Fixture.root Fixture.duplicated = Ok ds
    /\ map fst (H2ODataset.__iter__ ds) = [lit "0001"]
    /\ H2ODataset.__len__ ds = 1%nat.
Proof.
  eexists. split; [vm_compute; reflexivity |].
  destruct (iter_first_appearance float binary64 Fixture.root
              Fixture.duplicated _ Fixture.train_json Fixture.test_json
              eq_refl eq_refl eq_refl) as (K & L & _).
  split; [exact K | exact L].
Defined.

Section EntityFacts.
Context {F : Type} `{PyFloat F}.

Lemma made_entities (ds : list (EntityData F)) (es : list (Entity F)) :
  Forall2 (fun entity_data entity =>
             H2ODataset.make_entity entity_data = Ok entity) ds es ->
  Forall2 entity_of_record ds es.
Proof.
  induction 1 as [| entity_data entity ds es M _ IH]; constructor;
    [| exact IH].
  now apply make_entity_inv.
Qed.

Lemma made_actions (ds : list ActionData) :
  Forall2 action_of_record ds (map H2ODataset.make_action ds).
Proof.
  induction ds as [| action_data ds IH]; constructor; [| exact IH].
  repeat split.
Qed.

(** What a sample built from a record holds. *)
Lemma make_sample_content (path : Path) (split : str)
  (sample_data : SampleData F) (id : SampleID) (sample : Sample F) :
  H2ODataset.make_sample path split sample_data = Ok (id, sample) ->
  id = data_id sample_data
  /\ splits sample = [split]
  /\ image_path sample
     = (path / lit "images" / split / (id ++ lit ".jpg"))%path
  /\ Forall2 entity_of_record (data_entities sample_data) (entities sample)
  /\ Forall2 action_of_record (data_actions sample_data) (actions sample).
Proof.
  intros M.
  pose proof (make_sample_entities path split sample_data _ M) as Me.
  apply made_entities in Me. cbn [snd] in Me.
  apply make_sample_inv in M as (Hid & Hs & Hp & Ha).
  repeat split; try assumption. rewrite Ha. apply made_actions.
Qed.

End EntityFacts.

(** C8.  On a dataset constructed from a folder whose train.json and
    test.json both define a record with the same id, the dataset has
    exactly one entry for that id, and the entry is the sample built from
    the test manifest, the split loaded last (from the last record with that
    id, should test.json repeat it): that sample is what the lookup and the
    iteration give, its [splits] are ["test"], its image path is
    [path / "images" / "test" / "<id>.jpg"], and its entities and actions
    hold what that record says. *)
Theorem duplicate_id_last_write_wins (F : Type)
  (path : Path) (fs : Files F) (ds : H2ODataset.t F)
  (train test : list (SampleData F)) (id : SampleID) :
  H2ODataset.__init__ path fs = Ok ds ->
  split_json fs (lit "train") = Some train ->
  split_json fs (lit "test") = Some test ->
  In id (map data_id train) -> In id (map data_id test) ->
  exists (sample_data : SampleData F) (sample : Sample F),
    count_occ str_eq_dec (map fst (H2ODataset.__iter__ ds)) id = 1%nat
    /\ last_record id test = Some sample_data
    /\ H2ODataset.make_sample path (lit "test") sample_data = Ok (id, sample)
    /\ H2ODataset.__getitem__ ds id = Ok sample
    /\ (forall s, In (id, s) (H2ODataset.__iter__ ds) -> s = sample)
    /\ splits sample = [lit "test"]
    /\ image_path sample
       = (path / lit "images" / lit "test" / (id ++ lit ".jpg"))%path
    /\ Forall2 entity_of_record (data_entities sample_data)
               (entities sample)
    /\ Forall2 action_of_record (data_actions sample_data) (actions sample).
Proof.
  intros I Htr Hte Itr Ite.
  destruct (init_items path fs ds train test I Htr Hte)
    as (tr & te & Btr & Bte & E).
  pose proof (init_NoDup path fs ds I) as U.
  pose proof (built_get path (lit "test") (rev test) (rev te) id
                (Forall2_rev _ _ _ Bte)) as L.
  unfold last_record.
  destruct (find _ (rev test)) as [sample_data |] eqn:Ef.
  - destruct L as (sample & Ms & G).
    assert (Gd : Dict.get (H2ODataset._samples ds) id = Some sample).
    { rewrite E. unfold SampleID in *. now rewrite get_update, G. }
    exists sample_data, sample.
    split.
    { apply count_occ_NoDup_In; [exact U |].
      unfold H2ODataset.__iter__, Dict.items. rewrite E.
      apply In_keys_update. right.
      pose proof (built_keys path (lit "test") test te Bte) as K.
      unfold SampleID in *. now rewrite K. }
    split; [reflexivity |].
    split; [exact Ms |].
    split; [unfold H2ODataset.__getitem__; now rewrite Gd |].
    split.
    { intros s Is. apply (In_get _ _ _ U) in Is.
      unfold H2ODataset.__iter__, Dict.items in *. congruence. }
    apply make_sample_content in Ms. tauto.
  - exfalso. apply in_map_iff in Ite as (sample_data & <- & Is).
    apply in_rev in Is.
    pose proof (find_none _ _ Ef _ Is) as N; cbn in N.
    now rewrite str_eqb_refl in N.
Qed.

(** An instance of [duplicate_id_last_write_wins]: the id ["0001"] in both
    manifests of [Fixture.duplicated].  The dataset loads and holds one
    sample, the one of test.json with its two entities. *)
Lemma duplicate_id_last_write_wins_witness :
  exists ds sample_data sample,
    H2ODataset.__init__ Fixture.root Fixture.duplicated = Ok ds
    /\ count_occ str_eq_dec (map fst (H2ODataset.__iter__ ds)) (lit "0001")
       = 1%nat
    /\ last_record (lit "0001") Fixture.test_json = Some sample_data
    /\ H2ODataset.make_sample Fixture.root (lit "test") sample_data
       = Ok (lit "0001", sample)
    /\ H2ODataset.__getitem__ ds (lit "0001") = Ok sample
    /\ (forall s, In (lit "0001", s) (H2ODataset.__iter__ ds) -> s = sample)
    /\ splits sample = [lit "test"]
    /\ image_path sample
       = (Fixture.root / lit "images" / lit "test"
          / (lit "0001" ++ lit ".jpg"))%path
    /\ Forall2 entity_of_record (data_entities sample_data)
               (entities sample)
    /\ Forall2 action_of_record (data_actions sample_data) (actions sample).
Proof.
  eexists.
  destruct (duplicate_id_last_write_wins float Fixture.root
              Fixture.duplicated _ Fixture.train_json Fixture.test_json
              (lit "0001") eq_refl eq_refl eq_refl)
    as (sample_data & sample & P);
    [left; reflexivity | left; reflexivity |].
  exists sample_data, sample. split; [reflexivity | exact P].
Defined.

(** X12.  Every sample a constructed dataset holds was built from a record
    of the manifest of one of the two splits: it is kept under the id of the
    record, its [splits] hold that split alone, its image path is
    [path / "images" / split / "<id>.jpg"], and its entities and actions
    are those of the record, in order and field by field: each entity has
    the category of its record and the four numbers of [bbox] as the
    coordinates of a normalized XYXY box, each action the verb, subject,
    target and instrument of its record. *)
Theorem loaded_samples_invariant (F : Type) (path : Path) (fs : Files F)
  (ds : H2ODataset.t F) (id : SampleID) (sample : Sample F) :
  H2ODataset.__init__ path fs = Ok ds ->
  In (id, sample) (H2ODataset.__iter__ ds) ->
  exists split data sample_data,
    In split H2ODataset.splits
    /\ split_json fs split = Some data
    /\ In sample_data data
    /\ id = data_id sample_data
    /\ splits sample = [split]
    /\ image_path sample
       = (path / lit "images" / split / (id ++ lit ".jpg"))%path
    /\ Forall2 entity_of_record (data_entities sample_data)
               (entities sample)
    /\ Forall2 action_of_record (data_actions sample_data) (actions sample).
Proof.
  intros I Hin.
  destruct (init_samples path fs ds I) as (tr & te & Etr & Ete & E).
  unfold H2ODataset.__iter__, Dict.items in Hin. rewrite E in Hin.
  assert (B : exists split items,
             In split H2ODataset.splits
             /\ H2ODataset._get_samples path fs split = Ok items
             /\ In (id, sample) items).
  { apply In_update in Hin as [Hin | Hin].
    - apply In_update in Hin as [[] | Hin].
      exists (lit "train"), tr. repeat split; [now left | |]; assumption.
    - exists (lit "test"), te.
      repeat split; [right; now left | |]; assumption. }
  destruct B as (split & items & Is & Es & Ii).
  apply get_samples_inv in Es as (data & Hd & _ & Bd).
  destruct (Forall2_In_r _ _ _ _ Bd Ii) as (sample_data & Id & M).
  apply make_sample_content in M.
  exists split, data, sample_data. tauto.
Qed.

(** An instance of [loaded_samples_invariant]: the sample of the folder
    [Fixture.one_sample]. *)
Lemma loaded_samples_invariant_witness :
  exists ds sample,
    H2ODataset.__init__ Fixture.root Fixture.one_sample = Ok ds
    /\ H2ODataset.__iter__ ds = [(lit "0001", sample)]
    /\ exists split data sample_data,
         In split H2ODataset.splits
         /\ split_json Fixture.one_sample split = Some data
         /\ In sample_data data
         /\ lit "0001" = data_id sample_data
         /\ splits sample = [split]
         /\ image_path sample
            = (Fixture.root / lit "images" / split
               / (lit "0001" ++ lit ".jpg"))%path
         /\ Forall2 entity_of_record (data_entities sample_data)
                    (entities sample)
         /\ Forall2 action_of_record (data_actions sample_data)
                    (actions sample).
Proof.
  eexists. eexists. split; [vm_compute; reflexivity |].
  split; [reflexivity |].
  apply (loaded_samples_invariant float Fixture.root
           Fixture.one_sample _ (lit "0001") _ eq_refl).
  left; reflexivity.
Defined.

(** X13.  The lookup of an id on a constructed dataset gives the sample
    built from the last record with that id in test.json; when test.json has
    none, the sample built from the last such record in train.json, whose
    [splits] are ["train"]; and when neither has one, it raises the
    [KeyError] of the id. *)
Theorem getitem_by_manifest (F : Type) (A : PyFloat F) (path : Path)
  (fs : Files F) (ds : H2ODataset.t F) (train test : list (SampleData F))
  (id : SampleID) :
  H2ODataset.__init__ path fs = Ok ds ->
  split_json fs (lit "train") = Some train ->
  split_json fs (lit "test") = Some test ->
  match last_record id test, last_record id train with
  | Some sample_data, _ =>
      exists sample,
        H2ODataset.make_sample path (lit "test") sample_data
        = Ok (id, sample)
        /\ H2ODataset.__getitem__ ds id = Ok sample
  | None, Some sample_data =>
      exists sample,
        H2ODataset.make_sample path (lit "train") sample_data
        = Ok (id, sample)
        /\ H2ODataset.__getitem__ ds id = Ok sample
        /\ splits sample = [lit "train"]
  | None, None => H2ODataset.__getitem__ ds id = Err (KeyError id)
  end.
Proof.
  intros I Htr Hte.
  destruct (init_items path fs ds train test I Htr Hte)
    as (tr & te & Btr & Bte & E).
  pose proof (built_get path (lit "test") (rev test) (rev te) id
                (Forall2_rev _ _ _ Bte)) as Lte.
  pose proof (built_get path (lit "train") (rev train) (rev tr) id
                (Forall2_rev _ _ _ Btr)) as Ltr.
  unfold last_record, H2ODataset.__getitem__. rewrite E.
  unfold SampleID in *. rewrite !get_update.
  destruct (find _ (rev test)) as [sd |].
  - destruct Lte as (sample & M & G). rewrite G. eauto.
  - rewrite Lte. destruct (find _ (rev train)) as [sd |].
    + destruct Ltr as (sample & M & G). rewrite G.
      exists sample. repeat split; [exact M |].
      now apply make_sample_inv in M.
    + now rewrite Ltr.
Qed.

(** An instance of [getitem_by_manifest]: in the folder with ["0001"] in
    train.json and ["0002"] in test.json, the lookup of ["0001"] gives the
    sample of train.json and the lookup of ["0003"] raises. *)
Lemma getitem_by_manifest_witness :
  exists ds,
    H2ODataset.__init__ Fixture.root BrokenFixture.two_samples = Ok ds
    /\ (exists sample,
          H2ODataset.__getitem__ ds (lit "0001") = Ok sample
          /\ splits sample = [lit "train"])
    /\ H2ODataset.__getitem__ ds (lit "0003") = Err (KeyError (lit "0003")).
Proof.
  eexists. split; [vm_compute; reflexivity |].
  split.
  - destruct (getitem_by_manifest float binary64 Fixture.root
                BrokenFixture.two_samples _ Fixture.train_json
                [ mkSampleData (lit "0002")
                    [ mkEntityData [0.5; 0.5; 1; 1]%float (lit "ball") ] [] ]
                (lit "0001") eq_refl eq_refl eq_refl)
      as (sample & _ & G & S).
    exists sample. split; [exact G | exact S].
  - exact (getitem_by_manifest float binary64 Fixture.root
             BrokenFixture.two_samples _ Fixture.train_json
             [ mkSampleData (lit "0002")
                 [ mkEntityData [0.5; 0.5; 1; 1]%float (lit "ball") ] [] ]
             (lit "0003") eq_refl eq_refl eq_refl).
Defined.

(* ========================================================================= *)
(** * The action table *)
(* ========================================================================= *)


